(** * SEC filing tracker: a shallow embedding of [scripts/sec_filing_tracker.py]

    The script polls two SEC endpoints for the filings of a watch list of
    tickers, renders a dated markdown report, rebuilds an index page and
    prunes old reports.  Every function of the script is embedded below as
    an executable Rocq function; the theorems at the end of the file relate
    them to the specification.

    Conventions of the embedding.
    - A Python [str] is a Rocq [string].  The text the script handles
      (tickers, form names, ISO dates, accession numbers, file names, URLs)
      is ASCII; the string functions below follow Python on the code points
      below 128 and leave every other character alone.  The two non-ASCII
      literals of the report (a dash and a link symbol) are kept as their
      UTF-8 bytes, which is what the file receives.
    - A Python [int] is a [Z]; JSON numbers are integers.
    - A decoded JSON document is a value of [json]; a Python [dict] that
      keeps insertion order is an association list with unique keys.
    - A function that can raise returns an [outcome]; a function with
      effects (network, clock, files) is a function on a [world] that
      returns an outcome together with the world it leaves behind, so that
      the state reached when an exception escapes is still observable. *)

From Stdlib Require Import ZArith QArith Lia Bool.
From Stdlib Require Import Ascii String DecimalString DecimalPos.
From stdpp Require Import base option list sorting gmap fin_maps strings.

Local Open Scope Z_scope.

(** ** Characters and strings, as Python's [str] methods treat them *)

Module Py.

(** [str.isspace] on one ASCII character: TAB, LF, VT, FF, CR, the four
    separators FS, GS, RS, US, and the space. *)
Definition is_space (c : ascii) : bool :=
  match c with
  | "009" | "010" | "011" | "012" | "013"
  | "028" | "029" | "030" | "031" | " " => true
  | _ => false
  end%char.

Definition is_digit (c : ascii) : bool :=
  match c with
  | "0" | "1" | "2" | "3" | "4" | "5" | "6" | "7" | "8" | "9" => true
  | _ => false
  end%char.

Definition digit_value (c : ascii) : Z := Z.of_nat (nat_of_ascii c) - 48.

(** The digit character of a number between 0 and 9. *)
Definition digit_char (n : Z) : ascii := ascii_of_nat (Z.to_nat (48 + n)).

(** [bool(s)] of a string: the empty string is the only falsy one. *)
Definition nonempty (s : string) : bool :=
  match s with EmptyString => false | String _ _ => true end.

(** [s.lstrip()], [s.rstrip()] and [s.strip()] with no argument. *)
Fixpoint lstrip (s : string) : string :=
  match s with
  | EmptyString => EmptyString
  | String c r => if is_space c then lstrip r else s
  end.

Fixpoint rstrip (s : string) : string :=
  match s with
  | EmptyString => EmptyString
  | String c r =>
      let r' := rstrip r in
      if is_space c && negb (nonempty r') then EmptyString else String c r'
  end.

Definition strip (s : string) : string := rstrip (lstrip s).

(** [s.upper()]: the 26 lower-case ASCII letters move down by 32. *)
Definition upper_char (c : ascii) : ascii :=
  let n := nat_of_ascii c in
  if (97 <=? n)%nat && (n <=? 122)%nat then ascii_of_nat (n - 32) else c.

Fixpoint upper (s : string) : string :=
  match s with
  | EmptyString => EmptyString
  | String c r => String (upper_char c) (upper r)
  end.

(** [s.startswith(p)]. *)
Fixpoint startswith (p s : string) : bool :=
  match p, s with
  | EmptyString, _ => true
  | String a p', String b s' => if ascii_dec a b then startswith p' s' else false
  | String _ _, EmptyString => false
  end.

(** [s.replace(old, new)]: every non-overlapping occurrence of [old],
    found from the left, is replaced.  [skip] counts the characters of an
    occurrence that was just replaced and are still to be passed over. *)
Fixpoint replace_from (old new : string) (skip : nat) (s : string) : string :=
  match s with
  | EmptyString => EmptyString
  | String c r =>
      match skip with
      | S k => replace_from old new k r
      | O =>
          if startswith old s
          then new +:+ replace_from old new (String.length old - 1) r
          else String c (replace_from old new 0 r)
      end
  end.

(** With an empty [old] Python puts [new] before every character and at
    the end. *)
Fixpoint intersperse_all (new s : string) : string :=
  match s with
  | EmptyString => new
  | String c r => new +:+ String c (intersperse_all new r)
  end.

Definition replace (old new s : string) : string :=
  match old with
  | EmptyString => intersperse_all new s
  | String _ _ => replace_from old new 0 s
  end.

(** [sep.join(parts)]. *)
Fixpoint join (sep : string) (parts : list string) : string :=
  match parts with
  | [] => EmptyString
  | [p] => p
  | p :: rest => p +:+ sep +:+ join sep rest
  end.

(** [s.split()] with no argument: the maximal runs of non-space
    characters. *)
Fixpoint split_go (cur : option string) (s : string) : list string :=
  match s with
  | EmptyString => option_list (String.rev <$> cur)
  | String c r =>
      if is_space c
      then option_list (String.rev <$> cur) ++ split_go None r
      else split_go (Some (String c (default EmptyString cur))) r
  end.

Definition split (s : string) : list string := split_go None s.

(** [str(n)] of an integer: its decimal digits, with a minus sign when
    negative. *)
Definition str_of_int (z : Z) : string :=
  match z with
  | Z0 => "0"
  | Zpos p => NilZero.string_of_uint (Pos.to_uint p)
  | Zneg p => String "-"%char (NilZero.string_of_uint (Pos.to_uint p))
  end.

(** [width] zeros-padded decimal, the ["%0<width>d"] and [f"{n:0<width>d}"]
    conversions: the sign counts in the width and nothing is ever cut. *)
Fixpoint zeros (n : nat) : string :=
  match n with O => EmptyString | S k => String "0"%char (zeros k) end.

Definition format_0d (width : nat) (z : Z) : string :=
  let digits := str_of_int (Z.abs z) in
  if z <? 0
  then String "-"%char (zeros (width - 1 - String.length digits) +:+ digits)
  else zeros (width - String.length digits) +:+ digits.

(** Comparison of two strings with [<], code point by code point. *)
Definition str_ltb (a b : string) : bool :=
  match String.compare a b with Lt => true | _ => false end.

End Py.


(** ** Exceptions and outcomes *)

(** The exception classes the script can meet.  The three [requests]
    classes are raised by the HTTP layer only. *)
Inductive exn : Type :=
  | AttributeError
  | TypeError
  | KeyError
  | IndexError
  | ValueError
  | OverflowError
  | RuntimeError
  | HTTPError (status : Z)      (* requests.exceptions.HTTPError *)
  | RequestException            (* connection failure, time-out, ... *)
  | ResponseJSONError           (* requests.exceptions.JSONDecodeError *)
  | JSONDecodeError             (* json.JSONDecodeError *)
  | FileNotFoundError
  | FileExistsError
  | IsADirectoryError.

Inductive outcome (A : Type) : Type :=
  | Ok (a : A)
  | Raise (e : exn).
Arguments Ok {A} a.
Arguments Raise {A} e.

#[global] Instance outcome_ret : MRet outcome := fun A a => Ok a.

#[global] Instance outcome_bind : MBind outcome := fun A B f x =>
  match x with
  | Ok a => f a
  | Raise e => Raise e
  end.

(** [try: c except Exception: handler]. *)
Definition try_except {A} (c : outcome A) (handler : outcome A) : outcome A :=
  match c with
  | Ok a => Ok a
  | Raise _ => handler
  end.

(** ** Decoded JSON values and the Python built-ins applied to them *)

#[local] Unset Elimination Schemes.
Inductive json : Type :=
  | JNull
  | JBool (b : bool)
  | JInt (z : Z)
  | JStr (s : string)
  | JArr (l : list json)
  | JObj (d : list (string * json)).
#[local] Set Elimination Schemes.

Module Builtin.

(** [bool(v)]. *)
Definition truthy (v : json) : bool :=
  match v with
  | JNull => false
  | JBool b => b
  | JInt z => negb (z =? 0)
  | JStr s => Py.nonempty s
  | JArr l => match l with [] => false | _ => true end
  | JObj d => match d with [] => false | _ => true end
  end.

(** [a or b]. *)
Definition or_else (a b : json) : json := if truthy a then a else b.

(** [d.get(key, default)] on a dictionary. *)
Fixpoint dict_get (d : list (string * json)) (key : string) (default : json) : json :=
  match d with
  | [] => default
  | (k, v) :: rest => if String.eqb k key then v else dict_get rest key default
  end.

(** [d[key]] on a dictionary. *)
Fixpoint dict_item (d : list (string * json)) (key : string) : outcome json :=
  match d with
  | [] => Raise KeyError
  | (k, v) :: rest => if String.eqb k key then Ok v else dict_item rest key
  end.

(** [v.get(key, default)] on any value: only dictionaries have the method. *)
Definition get (v : json) (key : string) (default : json) : outcome json :=
  match v with
  | JObj d => Ok (dict_get d key default)
  | _ => Raise AttributeError
  end.

(** [v.items()]. *)
Definition items (v : json) : outcome (list (string * json)) :=
  match v with
  | JObj d => Ok d
  | _ => Raise AttributeError
  end.

(** [len(v)]. *)
Definition len (v : json) : outcome nat :=
  match v with
  | JStr s => Ok (String.length s)
  | JArr l => Ok (length l)
  | JObj d => Ok (length d)
  | _ => Raise TypeError
  end.

(** [v[i]] with an index [i >= 0].  The keys of a decoded JSON object are
    strings, so an integer is never one of them. *)
Definition index (v : json) (i : nat) : outcome json :=
  match v with
  | JArr l => match l !! i with Some x => Ok x | None => Raise IndexError end
  | JStr s => match String.get i s with
              | Some c => Ok (JStr (String c EmptyString))
              | None => Raise IndexError
              end
  | JObj _ => Raise KeyError
  | _ => Raise TypeError
  end.

(** [v[key]] with a string key. *)
Definition item (v : json) (key : string) : outcome json :=
  match v with
  | JObj d => dict_item d key
  | _ => Raise TypeError
  end.

(** [for x in v]: the elements the loop visits. *)
Fixpoint chars (s : string) : list json :=
  match s with
  | EmptyString => []
  | String c r => JStr (String c EmptyString) :: chars r
  end.

Definition iter (v : json) : outcome (list json) :=
  match v with
  | JArr l => Ok l
  | JStr s => Ok (chars s)
  | JObj d => Ok (map (fun kv => JStr (fst kv)) d)
  | _ => Raise TypeError
  end.

(** [repr(s)] of a string: single quotes unless the string has a single
    quote and no double quote; the quote and the backslash are escaped,
    TAB, LF and CR have their letters, other control characters are
    written in hexadecimal. *)
Fixpoint contains (c : ascii) (s : string) : bool :=
  match s with
  | EmptyString => false
  | String a r => if ascii_dec a c then true else contains c r
  end.

Definition hex_char (n : nat) : ascii :=
  if (n <? 10)%nat then ascii_of_nat (48 + n) else ascii_of_nat (87 + n).

Definition repr_char (quote c : ascii) : string :=
  let n := nat_of_ascii c in
  let bs := "\"%char in
  if ascii_dec c quote then String bs (String c EmptyString)
  else if ascii_dec c bs then String bs (String bs EmptyString)
  else if ascii_dec c "009"%char then String bs "t"
  else if ascii_dec c "010"%char then String bs "n"
  else if ascii_dec c "013"%char then String bs "r"
  else if (n <? 32)%nat || (n =? 127)%nat
       then String bs (String "x"%char
              (String (hex_char (n / 16)) (String (hex_char (n mod 16)) EmptyString)))
  else String c EmptyString.

Fixpoint repr_chars (quote : ascii) (s : string) : string :=
  match s with
  | EmptyString => EmptyString
  | String c r => repr_char quote c +:+ repr_chars quote r
  end.

Definition DOUBLE_QUOTE : ascii := "034"%char.

Definition repr_str (s : string) : string :=
  let quote :=
    if contains "'"%char s && negb (contains DOUBLE_QUOTE s) then DOUBLE_QUOTE
    else "'"%char in
  String quote (repr_chars quote s +:+ String quote EmptyString).

(** [repr(v)]. *)
Fixpoint repr (v : json) : string :=
  match v with
  | JNull => "None"
  | JBool true => "True"
  | JBool false => "False"
  | JInt z => Py.str_of_int z
  | JStr s => repr_str s
  | JArr l => "[" +:+ Py.join ", " (map repr l) +:+ "]"
  | JObj d =>
      "{" +:+ Py.join ", " (map (fun kv => repr_str (fst kv) +:+ ": " +:+ repr (snd kv)) d) +:+ "}"
  end.

(** [str(v)]: a string is itself, anything else is its [repr]. *)
Definition str (v : json) : string :=
  match v with
  | JStr s => s
  | _ => repr v
  end.

(** [int(s)] of a string in base ten: optional surrounding white space, an
    optional sign, then digits that single underscores may separate. *)
Fixpoint digits_value (acc : Z) (after_digit : bool) (s : string) : option Z :=
  match s with
  | EmptyString => if after_digit then Some acc else None
  | String c r =>
      if Py.is_digit c then digits_value (10 * acc + Py.digit_value c) true r
      else if ascii_dec c "_"%char
           then (if after_digit then digits_value acc false r else None)
      else None
  end.

Definition int_of_str (s : string) : option Z :=
  match Py.strip s with
  | String "+"%char r => digits_value 0 false r
  | String "-"%char r => Z.opp <$> digits_value 0 false r
  | r => digits_value 0 false r
  end.

(** [int(v)]. *)
Definition int (v : json) : outcome Z :=
  match v with
  | JInt z => Ok z
  | JBool b => Ok (if b then 1 else 0)
  | JStr s => match int_of_str s with Some z => Ok z | None => Raise ValueError end
  | _ => Raise TypeError
  end.

End Builtin.

(** ** A matcher for the two regular expressions of the script

    A matcher reads a prefix of a string and hands what is left to its
    continuation; an alternative that matches is given up when the
    continuation fails, as a backtracking engine does. *)

Module Re.

Definition matcher (A : Type) : Type := string -> option A.

Definition in_range (lo hi : ascii) (c : ascii) : bool :=
  (nat_of_ascii lo <=? nat_of_ascii c)%nat && (nat_of_ascii c <=? nat_of_ascii hi)%nat.

(** Two characters [p1 p2], read as a two-digit number. *)
Definition two {A} (p1 p2 : ascii -> bool) (k : Z -> matcher A) : matcher A :=
  fun s =>
    match s with
    | String a (String b r) =>
        if p1 a && p2 b then k (10 * Py.digit_value a + Py.digit_value b) r else None
    | _ => None
    end.

(** One character [p], read as a digit. *)
Definition one {A} (p : ascii -> bool) (k : Z -> matcher A) : matcher A :=
  fun s =>
    match s with
    | String a r => if p a then k (Py.digit_value a) r else None
    | _ => None
    end.

(** The literal character [c]. *)
Definition lit {A} (c : ascii) (k : matcher A) : matcher A :=
  fun s =>
    match s with
    | String a r => if ascii_dec a c then k r else None
    | _ => None
    end.

(** [a1|a2|...]: the first alternative after which the rest matches. *)
Fixpoint alt {A} (alts : list ((Z -> matcher A) -> matcher A)) (k : Z -> matcher A)
    : matcher A :=
  fun s =>
    match alts with
    | [] => None
    | a :: rest => match a k s with Some r => Some r | None => alt rest k s end
    end.

Definition is_char (c : ascii) : ascii -> bool := fun x => if ascii_dec x c then true else false.

(** [\d], its value dropped. *)
Definition digit {A} (k : matcher A) : matcher A := one Py.is_digit (fun _ => k).

(** A sequence of matchers, one after the other. *)
Definition seq_of {A} (ms : list (matcher A -> matcher A)) (k : matcher A) : matcher A :=
  foldr (fun m rest => m rest) k ms.

(** [$]: the end of the string, or just before a newline that ends it. *)
Definition eos : matcher unit :=
  fun s =>
    match s with
    | EmptyString => Some tt
    | String "010"%char EmptyString => Some tt
    | _ => None
    end.

End Re.

(** ** Calendar dates, as [datetime.date] has them *)

Record date : Type := mkdate { year : Z; month : Z; day : Z }.

Module Date.

Definition is_leap (y : Z) : bool :=
  (y mod 4 =? 0) && (negb (y mod 100 =? 0) || (y mod 400 =? 0)).

(** The tables [_DAYS_IN_MONTH] and [_DAYS_BEFORE_MONTH], indexed from 1. *)
Definition DAYS_IN_MONTH (m : Z) : Z :=
  match m with
  | 1 => 31 | 2 => 28 | 3 => 31 | 4 => 30 | 5 => 31 | 6 => 30
  | 7 => 31 | 8 => 31 | 9 => 30 | 10 => 31 | 11 => 30 | 12 => 31
  | _ => -1
  end.

Definition DAYS_BEFORE_MONTH (m : Z) : Z :=
  match m with
  | 1 => 0 | 2 => 31 | 3 => 59 | 4 => 90 | 5 => 120 | 6 => 151
  | 7 => 181 | 8 => 212 | 9 => 243 | 10 => 273 | 11 => 304 | 12 => 334
  | _ => -1
  end.

Definition days_in_month (y m : Z) : Z :=
  if (m =? 2) && is_leap y then 29 else DAYS_IN_MONTH m.

Definition days_before_year (y : Z) : Z :=
  let y := y - 1 in y * 365 + y / 4 - y / 100 + y / 400.

Definition days_before_month (y m : Z) : Z :=
  DAYS_BEFORE_MONTH m + (if (2 <? m) && is_leap y then 1 else 0).

Definition MINYEAR : Z := 1.
Definition MAXYEAR : Z := 9999.
Definition MAXORDINAL : Z := 3652059.

(** The check of the constructor [date(year, month, day)]. *)
Definition valid (d : date) : bool :=
  (MINYEAR <=? year d) && (year d <=? MAXYEAR) &&
  (1 <=? month d) && (month d <=? 12) &&
  (1 <=? day d) && (day d <=? days_in_month (year d) (month d)).

Definition new (y m d : Z) : outcome date :=
  let x := mkdate y m d in
  if valid x then Ok x else Raise ValueError.

(** [a < b] and [a == b] on dates: the triples (year, month, day) are
    compared. *)
Definition ltb (a b : date) : bool :=
  (year a <? year b) ||
  ((year a =? year b) &&
   ((month a <? month b) || ((month a =? month b) && (day a <? day b)))).

Definition eqb (a b : date) : bool :=
  (year a =? year b) && (month a =? month b) && (day a =? day b).

(** [d.isoformat()], that is ["%04d-%02d-%02d" % (year, month, day)]. *)
Definition isoformat (d : date) : string :=
  Py.format_0d 4 (year d) +:+ "-" +:+ Py.format_0d 2 (month d) +:+ "-" +:+
  Py.format_0d 2 (day d).

(** [d.toordinal()] and [date.fromordinal(n)], after [_ymd2ord] and
    [_ord2ymd] of the reference implementation. *)
Definition toordinal (d : date) : Z :=
  days_before_year (year d) + days_before_month (year d) (month d) + day d.

Definition DI400Y : Z := 146097.
Definition DI100Y : Z := 36524.
Definition DI4Y : Z := 1461.

Definition fromordinal (n : Z) : date :=
  let n := n - 1 in
  let n400 := n / DI400Y in
  let n := n mod DI400Y in
  let y := n400 * 400 + 1 in
  let n100 := n / DI100Y in
  let n := n mod DI100Y in
  let n4 := n / DI4Y in
  let n := n mod DI4Y in
  let n1 := n / 365 in
  let n := n mod 365 in
  let y := y + n100 * 100 + n4 * 4 + n1 in
  if (n1 =? 4) || (n100 =? 4) then mkdate (y - 1) 12 31
  else
    let leapyear := (n1 =? 3) && (negb (n4 =? 24) || (n100 =? 3)) in
    let m := Z.shiftr (n + 50) 5 in
    let preceding := DAYS_BEFORE_MONTH m + (if (2 <? m) && leapyear then 1 else 0) in
    if n <? preceding
    then
      let m := m - 1 in
      let preceding :=
        preceding - (DAYS_IN_MONTH m + (if (m =? 2) && leapyear then 1 else 0)) in
      mkdate y m (n - preceding + 1)
    else mkdate y m (n - preceding + 1).

(** [timedelta(days=n)]: the number of days is bounded by 999999999. *)
Definition timedelta (days : Z) : outcome Z :=
  if (-999999999 <=? days) && (days <=? 999999999) then Ok days else Raise OverflowError.

(** [d - delta] for a date and a [timedelta] of whole days. *)
Definition sub (d : date) (delta : Z) : outcome date :=
  let o := toordinal d - delta in
  if (0 <? o) && (o <=? MAXORDINAL) then Ok (fromordinal o) else Raise OverflowError.

(** *** [datetime.strptime(s, "%Y-%m-%d").date()]

    [strptime] compiles the format to the regular expression
    [(\d\d\d\d)-(1[0-2]|0[1-9]|[1-9])-(3[0-1]|[1-2]\d|0[1-9]|[1-9]| [1-9])],
    matches it at the start of the string, refuses a string with
    characters left after the match, and builds the date, which checks
    the day against the month.  The matcher below tries the alternatives
    in the order of the expression and moves to the next one when what
    follows does not match. *)

(** [\d\d\d\d] *)
Definition re_Y {A} (k : Z -> Re.matcher A) : Re.matcher A :=
  Re.two Py.is_digit Py.is_digit (fun hi => Re.two Py.is_digit Py.is_digit (fun lo => k (100 * hi + lo))).

(** [1[0-2]|0[1-9]|[1-9]] *)
Definition re_m {A} : (Z -> Re.matcher A) -> Re.matcher A :=
  Re.alt [ Re.two (Re.is_char "1"%char) (Re.in_range "0" "2");
        Re.two (Re.is_char "0"%char) (Re.in_range "1" "9");
        Re.one (Re.in_range "1" "9") ].

(** [3[0-1]|[1-2]\d|0[1-9]|[1-9]| [1-9]] *)
Definition re_d {A} : (Z -> Re.matcher A) -> Re.matcher A :=
  Re.alt [ Re.two (Re.is_char "3"%char) (Re.in_range "0" "1");
        Re.two (Re.in_range "1" "2") Py.is_digit;
        Re.two (Re.is_char "0"%char) (Re.in_range "1" "9");
        Re.one (Re.in_range "1" "9");
        (fun k => Re.lit " "%char (Re.one (Re.in_range "1" "9") k)) ].

Definition re_ymd : Re.matcher (Z * Z * Z * string) :=
  re_Y (fun y => Re.lit "-"%char (re_m (fun m => Re.lit "-"%char (re_d (fun d rest =>
    Some (y, m, d, rest)))))).

Definition strptime_ymd (s : string) : outcome date :=
  match re_ymd s with
  | None => Raise ValueError
  | Some (y, m, d, rest) =>
      if Py.nonempty rest then Raise ValueError else new y m d
  end.

End Date.

(** ** The world of a run: network, clock and files *)

(** What [requests.get] meets: an exception of the transport (no
    connection, a time-out), or a response with a status code and a body,
    which decodes as JSON or does not. *)
Inductive reply : Type :=
  | NoReply
  | Reply (status : Z) (body : option json).

Record request : Type := mkrequest {
  req_url : string;
  req_headers : list (string * string);
  req_timeout : Z
}.

(** An entry of the report directory: a regular file, or something
    [open] and [os.remove] refuse (a sub-directory). *)
Inductive node : Type :=
  | File (content : string)
  | Dir.

(** The path [reports] itself: missing, a regular file, or a directory. *)
Inductive reports_state : Type :=
  | NoReports
  | ReportsFile
  | ReportsDir (entries : gmap string node).

(** The three places of the working directory the script touches.
    [tickers_json] is [config/tickers.json]: missing, or present with the
    value its text decodes to, if it decodes. *)
Record filesystem : Type := mkfs {
  tickers_json : option (option json);
  reports : reports_state;
  index_md : option node
}.

(** [net k url] is what the [k]-th request of the run meets when it is sent
    to [url]; [requests] and [slept] log the requests made and the sleeps
    taken, oldest first; [today] is the date in Asia/Taipei when the clock
    is read. *)
Record world : Type := mkworld {
  net : nat -> string -> reply;
  requests : list request;
  slept : list Q;
  today : date;
  fs : filesystem
}.

Definition set_requests (w : world) (r : list request) : world :=
  mkworld (net w) r (slept w) (today w) (fs w).
Definition set_slept (w : world) (s : list Q) : world :=
  mkworld (net w) (requests w) s (today w) (fs w).
Definition set_fs (w : world) (f : filesystem) : world :=
  mkworld (net w) (requests w) (slept w) (today w) f.

(** A computation with effects: it may raise, and in either case leaves a
    world behind. *)
Definition M (A : Type) : Type := world -> outcome A * world.

#[global] Instance M_ret : MRet M := fun A a w => (Ok a, w).

#[global] Instance M_bind : MBind M := fun A B f c w =>
  match c w with
  | (Ok a, w') => f a w'
  | (Raise e, w') => (Raise e, w')
  end.

Definition lift {A} (x : outcome A) : M A := fun w => (x, w).

Definition raise {A} (e : exn) : M A := fun w => (Raise e, w).

(** [for x in l: acc = body(x, acc)]: the loop stops at the first exception. *)
Fixpoint for_each {A S} (l : list A) (body : A -> S -> M S) (acc : S) : M S :=
  match l with
  | [] => mret acc
  | x :: rest => acc' ← body x acc; for_each rest body acc'
  end.

Module Sys.

(** [requests.get(url, headers=headers, timeout=timeout)]. *)
Definition requests_get (url : string) (headers : list (string * string)) (timeout : Z)
    : M (Z * option json) :=
  fun w =>
    let w' := set_requests w (requests w ++ [mkrequest url headers timeout]) in
    match net w (length (requests w)) url with
    | NoReply => (Raise RequestException, w')
    | Reply status body => (Ok (status, body), w')
    end.

(** [r.raise_for_status()]: the statuses from 400 to 599 raise. *)
Definition raise_for_status (r : Z * option json) : M unit :=
  if (400 <=? fst r) && (fst r <? 600) then raise (HTTPError (fst r)) else mret tt.

(** [r.json()]. *)
Definition response_json (r : Z * option json) : M json :=
  match snd r with
  | Some j => mret j
  | None => raise ResponseJSONError
  end.

(** [time.sleep(seconds)]. *)
Definition sleep (seconds : Q) : M unit :=
  fun w => (Ok tt, set_slept w (slept w ++ [seconds])).

(** [datetime.now(ZoneInfo("Asia/Taipei")).date()]. *)
Definition now_date : M date := fun w => (Ok (today w), w).

(** [json.load] of [config/tickers.json], opened for reading. *)
Definition load_tickers_json : M json :=
  fun w =>
    match tickers_json (fs w) with
    | None => (Raise FileNotFoundError, w)
    | Some None => (Raise JSONDecodeError, w)
    | Some (Some v) => (Ok v, w)
    end.

(** [os.makedirs(REPORTS_DIR, exist_ok=True)]. *)
Definition makedirs_reports : M unit :=
  fun w =>
    match reports (fs w) with
    | NoReports =>
        (Ok tt, set_fs w (mkfs (tickers_json (fs w)) (ReportsDir ∅) (index_md (fs w))))
    | ReportsFile => (Raise FileExistsError, w)
    | ReportsDir _ => (Ok tt, w)
    end.

(** [os.listdir(REPORTS_DIR)]: the names of the entries, in the order the
    system gives them. *)
Definition listdir_reports : M (list string) :=
  fun w =>
    match reports (fs w) with
    | ReportsDir entries => (Ok (map fst (map_to_list entries)), w)
    | _ => (Raise FileNotFoundError, w)
    end.

(** [open(os.path.join(REPORTS_DIR, name), "w").write(content)]. *)
Definition write_in_reports (name content : string) : M unit :=
  fun w =>
    match reports (fs w) with
    | ReportsDir entries =>
        match entries !! name with
        | Some Dir => (Raise IsADirectoryError, w)
        | _ =>
            (Ok tt, set_fs w (mkfs (tickers_json (fs w))
                                (ReportsDir (<[name := File content]> entries))
                                (index_md (fs w))))
        end
    | _ => (Raise FileNotFoundError, w)
    end.

(** [os.remove(os.path.join(REPORTS_DIR, name))]. *)
Definition remove_in_reports (name : string) : M unit :=
  fun w =>
    match reports (fs w) with
    | ReportsDir entries =>
        match entries !! name with
        | Some (File _) =>
            (Ok tt, set_fs w (mkfs (tickers_json (fs w))
                                (ReportsDir (delete name entries))
                                (index_md (fs w))))
        | Some Dir => (Raise IsADirectoryError, w)
        | None => (Raise FileNotFoundError, w)
        end
    | _ => (Raise FileNotFoundError, w)
    end.

(** [open(INDEX_PATH, "w").write(content)]. *)
Definition write_index (content : string) : M unit :=
  fun w =>
    match index_md (fs w) with
    | Some Dir => (Raise IsADirectoryError, w)
    | _ =>
        (Ok tt, set_fs w (mkfs (tickers_json (fs w)) (reports (fs w)) (Some (File content))))
    end.

End Sys.

(** ** The script *)

Definition USER_AGENT : string := "SEC-Filing-Tracker mis23ms@gmail.com".
Definition FORMS : gset string := {[ "10-K"; "10-Q"; "20-F"; "8-K"; "6-K" ]}.
Definition REPORTS_DIR : string := "reports".
Definition INDEX_PATH : string := "index.md".

(** [DATE_RE.match(fn)] for [^\d{4}-\d{2}-\d{2}\.md$]. *)
Definition DATE_RE : Re.matcher unit :=
  Re.seq_of
    [ Re.digit; Re.digit; Re.digit; Re.digit; Re.lit "-"%char;
      Re.digit; Re.digit; Re.lit "-"%char;
      Re.digit; Re.digit;
      Re.lit "."%char; Re.lit "m"%char; Re.lit "d"%char ]
    Re.eos.

Definition DATE_RE_match (fn : string) : bool :=
  match DATE_RE fn with Some _ => true | None => false end.

(** *** [http_get_json] *)

Definition headers : list (string * string) :=
  [ ("User-Agent", USER_AGENT);
    ("From", List.last (Py.split USER_AGENT) EmptyString);
    ("Accept", "application/json") ].

Definition RETRY_STATUS : list Z := [403; 429; 500; 502; 503; 504].

Definition retryable (status : Z) : bool := bool_decide (status ∈ RETRY_STATUS).

(** [range(n)]. *)
Definition range (n : nat) : list Z := map Z.of_nat (seq 0 n).

(** The loop [for attempt in range(4)], from the attempts still to make;
    after the last one the function raises [RuntimeError]. *)
Fixpoint http_get_json_attempts (url : string) (attempts : list Z) : M json :=
  match attempts with
  | [] => raise RuntimeError
  | attempt :: rest =>
      r ← Sys.requests_get url headers 30;
      if retryable (fst r) && (attempt <? 3)
      then (Sys.sleep (inject_Z (2 ^ (attempt + 1))) ;; http_get_json_attempts url rest)
      else (Sys.raise_for_status r ;; Sys.response_json r)
  end.

Definition http_get_json (url : string) : M json :=
  http_get_json_attempts url (range 4).

(** *** [load_tickers] *)

Record ticker_entry : Type := mkticker { ticker : string; name : string }.

(** [v.strip()] as a method call: only strings have the method. *)
Definition method_strip (v : json) : outcome string :=
  match v with
  | JStr s => Ok (Py.strip s)
  | _ => Raise AttributeError
  end.

(** The body of the loop [for it in items]. *)
Definition load_tickers_step (it : json) (out : list ticker_entry)
    : outcome (list ticker_entry) :=
  tv ← Builtin.get it "ticker" (JStr "");
  ts ← method_strip tv;
  let t := Py.upper ts in
  nv ← Builtin.get it "name" (JStr "");
  n ← method_strip nv;
  if Py.nonempty t && Py.nonempty n then Ok (out ++ [mkticker t n]) else Ok out.

Fixpoint load_tickers_loop (its : list json) (out : list ticker_entry)
    : outcome (list ticker_entry) :=
  match its with
  | [] => Ok out
  | it :: rest => out' ← load_tickers_step it out; load_tickers_loop rest out'
  end.

Definition load_tickers : M (list ticker_entry) :=
  items ← Sys.load_tickers_json;
  its ← lift (Builtin.iter items);
  lift (load_tickers_loop its []).

(** *** [build_ticker_to_cik] *)

(** The two statements under [try]. *)
Definition ticker_and_cik (row : json) : outcome (string * Z) :=
  tv ← Builtin.item row "ticker";
  let t := Py.upper (Builtin.str tv) in
  cv ← Builtin.item row "cik_str";
  cik ← Builtin.int cv;
  Ok (t, cik).

Definition build_mapping (rows : list (string * json)) : gmap string Z :=
  fold_left
    (fun mapping kv =>
       match ticker_and_cik (snd kv) with
       | Ok (t, cik) => <[t := cik]> mapping
       | Raise _ => mapping
       end)
    rows ∅.

Definition build_ticker_to_cik : M (gmap string Z) :=
  data ← http_get_json "https://www.sec.gov/files/company_tickers.json";
  rows ← lift (Builtin.items data);
  mret (build_mapping rows).

(** *** [submissions_url] and [archive_url] *)

Definition submissions_url (cik : Z) : string :=
  "https://data.sec.gov/submissions/CIK" +:+ Py.format_0d 10 cik +:+ ".json".

Definition archive_url (cik : Z) (accession primary_doc : string) : string :=
  let cik_nolead := Py.str_of_int cik in
  let acc_nodash := Py.replace "-" "" accession in
  "https://www.sec.gov/Archives/edgar/data/" +:+ cik_nolead +:+ "/" +:+ acc_nodash
    +:+ "/" +:+ primary_doc.

(** *** [parse_recent_filings] *)

Record filing : Type := mkfiling { form : string; filed : string; url : string }.

(** [l.sort(key=key, reverse=True)]: descending keys, and the elements
    with equal keys stay in the order they had. *)
Fixpoint insert_reverse {A} (key : A -> string) (x : A) (l : list A) : list A :=
  match l with
  | [] => [x]
  | y :: rest =>
      if Py.str_ltb (key x) (key y) then y :: insert_reverse key x rest else x :: l
  end.

Fixpoint sort_reverse {A} (key : A -> string) (l : list A) : list A :=
  match l with
  | [] => []
  | x :: rest => insert_reverse key x (sort_reverse key rest)
  end.

(** [submissions.get("filings", {}).get("recent", {})]. *)
Definition recent_of (submissions : json) : outcome json :=
  filings ← Builtin.get submissions "filings" (JObj []);
  Builtin.get filings "recent" (JObj []).

(** [recent.get(key, []) or []]. *)
Definition column (recent : json) (key : string) : outcome json :=
  v ← Builtin.get recent key (JArr []);
  Ok (Builtin.or_else v (JArr [])).

(** [int(submissions.get("cik", 0) or 0)]. *)
Definition cik_of (submissions : json) : outcome Z :=
  v ← Builtin.get submissions "cik" (JInt 0);
  Builtin.int (Builtin.or_else v (JInt 0)).

(** The body of the loop [for i in range(n)]: [None] stands for
    [continue], [Some f] for the record that is appended. *)
Definition filing_at (submissions forms dates accessions primary_docs : json)
    (cutoff : date) (i : nat) : outcome (option filing) :=
  fv ← Builtin.index forms i;
  let form := Py.strip (Builtin.str fv) in
  if negb (bool_decide (form ∈ FORMS)) then Ok None else
  match (dv ← Builtin.index dates i; Date.strptime_ymd (Builtin.str dv)) with
  | Raise _ => Ok None
  | Ok filed =>
      if Date.ltb filed cutoff then Ok None else
      av ← Builtin.index accessions i;
      let acc := Py.strip (Builtin.str av) in
      pv ← Builtin.index primary_docs i;
      let pdoc := Py.strip (Builtin.str pv) in
      if negb (Py.nonempty acc) || negb (Py.nonempty pdoc) then Ok None else
      cik ← cik_of submissions;
      Ok (Some (mkfiling form (Date.isoformat filed) (archive_url cik acc pdoc)))
  end.

Fixpoint parse_loop (submissions forms dates accessions primary_docs : json)
    (cutoff : date) (positions : list nat) (filings : list filing)
    : outcome (list filing) :=
  match positions with
  | [] => Ok filings
  | i :: rest =>
      r ← filing_at submissions forms dates accessions primary_docs cutoff i;
      parse_loop submissions forms dates accessions primary_docs cutoff rest
        (match r with Some f => filings ++ [f] | None => filings end)
  end.

Definition parse_recent_filings (submissions : json) (cutoff : date)
    : outcome (list filing) :=
  recent ← recent_of submissions;
  forms ← column recent "form";
  dates ← column recent "filingDate";
  accessions ← column recent "accessionNumber";
  primary_docs ← column recent "primaryDocument";
  n1 ← Builtin.len forms;
  n2 ← Builtin.len dates;
  n3 ← Builtin.len accessions;
  n4 ← Builtin.len primary_docs;
  let n := (n1 `min` (n2 `min` (n3 `min` n4)))%nat in
  filings ← parse_loop submissions forms dates accessions primary_docs cutoff (seq 0 n) [];
  Ok (sort_reverse filed filings).

(** *** [write_report] *)

Definition NO_FILINGS : string := "_No new filings in last 30 days_".

Definition filing_line (f : filing) : string :=
  "- " +:+ form f +:+ " | Filed: " +:+ filed f +:+ " | 🔗 [Link](" +:+ url f +:+ ")".

(** The lines one pass of the loop [for item in tickers] appends. *)
Definition section_lines (results : gmap string (list filing)) (item : ticker_entry)
    : list string :=
  let t := ticker item in
  let filings := default [] (results !! t) in
  ["## " +:+ t +:+ " — " +:+ name item]
  ++ (match filings with
      | [] => [NO_FILINGS]
      | _ :: _ => map filing_line filings
      end)
  ++ [EmptyString].

Definition report_lines (report_date : date) (tickers : list ticker_entry)
    (results : gmap string (list filing)) : list string :=
  ["# SEC Filing Tracker — " +:+ Date.isoformat report_date; EmptyString]
  ++ concat (map (section_lines results) tickers).

Definition NEWLINE : string := String "010"%char EmptyString.

(** What [f.write] receives. *)
Definition report_text (report_date : date) (tickers : list ticker_entry)
    (results : gmap string (list filing)) : string :=
  Py.rstrip (Py.join NEWLINE (report_lines report_date tickers results)) +:+ NEWLINE.

Definition report_name (report_date : date) : string :=
  Date.isoformat report_date +:+ ".md".

Definition write_report (report_date : date) (tickers : list ticker_entry)
    (results : gmap string (list filing)) : M unit :=
  Sys.makedirs_reports ;;
  Sys.write_in_reports (report_name report_date) (report_text report_date tickers results).

(** *** [update_index] *)

Definition index_line (fn : string) : string :=
  let date_str := Py.replace ".md" "" fn in
  "- [" +:+ date_str +:+ "](" +:+ REPORTS_DIR +:+ "/" +:+ fn +:+ ")".

Definition index_text (names : list string) : string :=
  let files := sort_reverse (fun fn => fn) (filter (fun fn => DATE_RE_match fn = true) names) in
  Py.join NEWLINE (["# SEC Filing Tracker Reports"; EmptyString] ++ map index_line files
                   ++ [EmptyString]).

Definition update_index : M unit :=
  Sys.makedirs_reports ;;
  names ← Sys.listdir_reports;
  Sys.write_index (index_text names).

(** *** [cleanup_old_reports] *)

(** Whether the loop removes the entry [fn]: its name matches [DATE_RE],
    the name without [.md] is a date, and the date is before [cutoff]. *)
Definition expired (cutoff : date) (fn : string) : bool :=
  if negb (DATE_RE_match fn) then false else
  let d_str := Py.replace ".md" "" fn in
  match Date.strptime_ymd d_str with
  | Raise _ => false
  | Ok d => Date.ltb d cutoff
  end.

Definition cleanup_step (cutoff : date) (fn : string) (_ : unit) : M unit :=
  if expired cutoff fn then Sys.remove_in_reports fn else mret tt.

Definition cleanup_old_reports (today_tpe : date) (keep_days : Z) : M unit :=
  Sys.makedirs_reports ;;
  delta ← lift (Date.timedelta keep_days);
  cutoff ← lift (Date.sub today_tpe delta);
  names ← Sys.listdir_reports;
  for_each names (cleanup_step cutoff) tt.

(** *** [main] *)

(** [d[key] = v] on any value: only a dictionary takes a string key.  A
    key that is present keeps its place. *)
Fixpoint dict_set (d : list (string * json)) (key : string) (v : json)
    : list (string * json) :=
  match d with
  | [] => [(key, v)]
  | (k, x) :: rest => if String.eqb k key then (k, v) :: rest else (k, x) :: dict_set rest key v
  end.

Definition setitem (o : json) (key : string) (v : json) : outcome json :=
  match o with
  | JObj d => Ok (JObj (dict_set d key v))
  | _ => Raise TypeError
  end.

(** [bool(ticker_to_cik.get(t))]: a missing key gives [None]. *)
Definition cik_truthy (cik : option Z) : bool :=
  match cik with
  | None => false
  | Some c => negb (c =? 0)
  end.

(** The body of the loop [for it in tickers]. *)
Definition main_step (ticker_to_cik : gmap string Z) (cutoff : date)
    (it : ticker_entry) (results : gmap string (list filing))
    : M (gmap string (list filing)) :=
  let t := ticker it in
  let cik := ticker_to_cik !! t in
  if negb (cik_truthy cik) then mret (<[t := []]> results) else
  let c := default 0 cik in
  subs ← http_get_json (submissions_url c);
  Sys.sleep (2 # 10) ;;
  subs' ← lift (setitem subs "cik" (JInt c));
  filings ← lift (parse_recent_filings subs' cutoff);
  mret (<[t := filings]> results).

(** The part of [main] that reads and fetches: everything before the
    three writing steps. *)
Definition main_collect
    : M (date * list ticker_entry * gmap string (list filing)) :=
  report_date ← Sys.now_date;
  delta ← lift (Date.timedelta 30);
  cutoff ← lift (Date.sub report_date delta);
  tickers ← load_tickers;
  ticker_to_cik ← build_ticker_to_cik;
  results ← for_each tickers (main_step ticker_to_cik cutoff) ∅;
  mret (report_date, tickers, results).

Definition main : M unit :=
  '(report_date, tickers, results) ← main_collect;
  write_report report_date tickers results ;;
  update_index ;;
  cleanup_old_reports report_date 30.

(** ** Vocabulary of the properties *)

(** A computation that raises or returns, in either case leaving the files
    as they were. *)
Definition keeps_fs {A} (c : M A) : Prop :=
  forall w, fs (snd (c w)) = fs w.

(** The world after one request to [url]. *)
Definition requested (url : string) (w : world) : world :=
  set_requests w (requests w ++ [mkrequest url headers 30]).

(** The world after a sleep of [seconds]. *)
Definition rested (seconds : Q) (w : world) : world :=
  set_slept w (slept w ++ [seconds]).

(** What the specification says of [load], in its words: an entry has a
    ticker field and a name field, each a string when present; the entry
    is kept when both are non-empty after trimming, with the ticker
    trimmed and upper-cased and the name trimmed. *)
Module LoadSpec.

Definition text_or_absent (d : list (string * json)) (key : string) : bool :=
  match Builtin.dict_get d key (JStr "") with
  | JStr _ => true
  | _ => false
  end.

Definition is_entry (it : json) : bool :=
  match it with
  | JObj d => text_or_absent d "ticker" && text_or_absent d "name"
  | _ => false
  end.

(** The text of a field, empty when the field is missing. *)
Definition field (it : json) (key : string) : string :=
  match it with
  | JObj d => match Builtin.dict_get d key (JStr "") with JStr s => s | _ => "" end
  | _ => ""
  end.

Definition complete (it : json) : bool :=
  Py.nonempty (Py.strip (field it "ticker")) && Py.nonempty (Py.strip (field it "name")).

Definition normalized (it : json) : ticker_entry :=
  mkticker (Py.upper (Py.strip (field it "ticker"))) (Py.strip (field it "name")).


End LoadSpec.




(** What the specification says of the filing filter, in its words: a
    position is kept when it lies in the four arrays, its trimmed form is
    one of the accepted forms, its date parses and is on or after the
    cut-off date, and its accession number and primary document are not
    empty once trimmed; the record has the trimmed form, the ISO date and
    the URL of the document. *)
Module FilterSpec.

Definition on_or_after (cutoff d : date) : bool := Date.ltb cutoff d || Date.eqb cutoff d.

Definition kept (cik : Z) (cutoff : date) (forms dates accessions primary_docs : list json)
    (i : nat) : option filing :=
  match forms !! i, dates !! i, accessions !! i, primary_docs !! i with
  | Some f, Some d, Some a, Some p =>
      let form := Py.strip (Builtin.str f) in
      let acc := Py.strip (Builtin.str a) in
      let pdoc := Py.strip (Builtin.str p) in
      match Date.strptime_ymd (Builtin.str d) with
      | Ok filed =>
          if bool_decide (form ∈ FORMS) && on_or_after cutoff filed
             && Py.nonempty acc && Py.nonempty pdoc
          then Some (mkfiling form (Date.isoformat filed) (archive_url cik acc pdoc))
          else None
      | Raise _ => None
      end
  | _, _, _, _ => None
  end.

(** The shortest of the four lengths. *)
Definition positions (forms dates accessions primary_docs : list json) : nat :=
  (length forms `min` (length dates `min` (length accessions `min` length primary_docs)))%nat.

End FilterSpec.

(** The two decimal digits of a number below 100, as characters. *)
Definition digits2 (n : Z) : string :=
  String (Py.digit_char (n / 10)) (String (Py.digit_char (n mod 10)) EmptyString).

(** A filing whose [filed] field is the ISO form of a calendar date. *)
Definition dated (f : filing) : Prop :=
  exists d, Date.valid d = true /\ filed f = Date.isoformat d.

(** The order the sort leaves between an element and a later one: the key
    of the later one is not above. *)
Definition not_below {A} (key : A -> string) (a b : A) : Prop :=
  (key b ≤ key a)%string.

(** The world with the entries of the report directory replaced. *)
Definition with_reports (w : world) (entries : gmap string node) : world :=
  set_fs w (mkfs (tickers_json (fs w)) (ReportsDir entries) (index_md (fs w))).

(** The last character of a string. *)
Fixpoint last_char (s : string) : option ascii :=
  match s with
  | EmptyString => None
  | String c r => match last_char r with Some x => Some x | None => Some c end
  end.

(** ** Sample worlds *)

Module Sample.

(** A registry with one ticker, a report directory with one report, and a
    network that answers 404 to everything. *)
Definition registry : json :=
  JArr [JObj [("ticker", JStr "aapl"); ("name", JStr "Apple Inc")]].

Definition files : filesystem :=
  mkfs (Some (Some registry)) (ReportsDir {[ "2024-01-30.md" := File "earlier report" ]})
       (Some (File "earlier index")).

Definition not_found : world :=
  mkworld (fun _ _ => Reply 404 None) [] [] (mkdate 2024 1 31) files.

(** A report directory on 31 January 2024: a report older than thirty
    days, the report of the thirtieth day before, a name of the right shape
    that is no date, and a file with another name. *)
Definition old_reports : gmap string node :=
  {[ "2023-12-31.md" := File "expired";
     "2024-01-01.md" := File "thirty days old";
     "2024-13-01.md" := File "no such month";
     "notes.txt" := File "notes" ]}.

Definition before_sweep : world :=
  mkworld (fun _ _ => NoReply) [] [] (mkdate 2024 1 31)
          (mkfs None (ReportsDir old_reports) None).

(** The submissions of the end-to-end scenario: a 10-K filed on
    10 January 2024 and an 8-K filed on 1 January 2023, with one
    primary document too many. *)
Definition forms : list json := [JStr "10-K"; JStr "8-K"].
Definition dates : list json := [JStr "2024-01-10"; JStr "2023-01-01"].
Definition accessions : list json := [JStr "0000320193-24-000006"; JStr "0000320193-23-000001"].
Definition primary_docs : list json := [JStr "aapl-10k.htm"; JStr "aapl-8k.htm"; JStr "extra.htm"].

Definition recent : json :=
  JObj [ ("form", JArr forms); ("filingDate", JArr dates);
         ("accessionNumber", JArr accessions); ("primaryDocument", JArr primary_docs) ].

Definition submissions : json :=
  JObj [ ("cik", JInt 320193); ("filings", JObj [("recent", recent)]) ].

(** Three filings that the source lists oldest, newest, middle. *)
Definition unsorted : json :=
  JObj [ ("cik", JInt 320193);
         ("filings", JObj [("recent", JObj
            [ ("form", JArr [JStr "8-K"; JStr "10-Q"; JStr "8-K"]);
              ("filingDate", JArr [JStr "2024-01-05"; JStr "2024-03-01"; JStr "2024-02-10"]);
              ("accessionNumber", JArr [JStr "a-1"; JStr "a-2"; JStr "a-3"]);
              ("primaryDocument", JArr [JStr "one.htm"; JStr "two.htm"; JStr "three.htm"]) ])]) ].

Definition newest_first : list filing :=
  [ mkfiling "10-Q" "2024-03-01" "https://www.sec.gov/Archives/edgar/data/320193/a2/two.htm";
    mkfiling "8-K" "2024-02-10" "https://www.sec.gov/Archives/edgar/data/320193/a3/three.htm";
    mkfiling "8-K" "2024-01-05" "https://www.sec.gov/Archives/edgar/data/320193/a1/one.htm" ].

End Sample.

(** ** Vocabulary of the further properties *)


(** What a call to the fetcher that stops at its first reply returns. *)
Definition settled (status : Z) (body : option json) : outcome json :=
  if (400 <=? status) && (status <? 600) then Raise (HTTPError status)
  else match body with
       | Some j => Ok j
       | None => Raise ResponseJSONError
       end.

(** An entry as the loader hands it on: both fields present, trimmed, and
    the ticker in upper case. *)
Definition normal_entry (e : ticker_entry) : Prop :=
  Py.nonempty (ticker e) = true /\ Py.nonempty (name e) = true /\
  Py.strip (ticker e) = ticker e /\ Py.upper (ticker e) = ticker e /\
  Py.strip (name e) = name e.

Module More.

(** Three rows of the mapping source: a ticker in mixed case, a row
    without identifier, and a later row for the same ticker with the
    identifier as text. *)
Definition rows : list (string * json) :=
  [ ("0", JObj [("cik_str", JInt 320193); ("ticker", JStr "Aapl")]);
    ("1", JObj [("ticker", JStr "MSFT")]);
    ("2", JObj [("cik_str", JStr "5"); ("ticker", JStr "aapl")]) ].

(** A registry whose second entry has a number for ticker. *)
Definition broken_registry : list json :=
  [ JObj [("ticker", JStr "aapl"); ("name", JStr "Apple Inc")];
    JObj [("ticker", JInt 7); ("name", JStr "Seven")];
    JObj [("ticker", JStr "msft"); ("name", JStr "Microsoft")] ].

(** Two filings of 10 February 2024 around one of 1 March. *)
Definition same_day : json :=
  JObj [ ("cik", JInt 320193);
         ("filings", JObj [("recent", JObj
            [ ("form", JArr [JStr "8-K"; JStr "10-Q"; JStr "8-K"]);
              ("filingDate", JArr [JStr "2024-02-10"; JStr "2024-03-01"; JStr "2024-02-10"]);
              ("accessionNumber", JArr [JStr "a-1"; JStr "a-2"; JStr "a-3"]);
              ("primaryDocument", JArr [JStr "one.htm"; JStr "two.htm"; JStr "three.htm"]) ])]) ].

Definition same_day_out : list filing :=
  [ mkfiling "10-Q" "2024-03-01" "https://www.sec.gov/Archives/edgar/data/320193/a2/two.htm";
    mkfiling "8-K" "2024-02-10" "https://www.sec.gov/Archives/edgar/data/320193/a1/one.htm";
    mkfiling "8-K" "2024-02-10" "https://www.sec.gov/Archives/edgar/data/320193/a3/three.htm" ].

Definition with_registry (items : json) : world :=
  mkworld (fun _ _ => NoReply) [] [] (mkdate 2024 1 31)
          (mkfs (Some (Some items)) NoReports None).

(** A world without network, registry or reports. *)
Definition offline : world :=
  mkworld (fun _ _ => NoReply) [] [] (mkdate 2024 1 31) (mkfs None NoReports None).

(** 31 January 2024 with a network that answers every request with an
    empty mapping; the registry of the sample and its directory of old
    reports. *)
Definition quiet_day : world :=
  mkworld (fun _ _ => Reply 200 (Some (JObj []))) [] [] (mkdate 2024 1 31)
          (mkfs (Some (Some Sample.registry)) (ReportsDir Sample.old_reports) None).

End More.

(** A string without the occurrences of one character. *)
Fixpoint without_char (c : ascii) (s : string) : string :=
  match s with
  | EmptyString => EmptyString
  | String a r => if ascii_dec a c then without_char c r else String a (without_char c r)
  end.

(** The records of a list that carry a given [filed] text, in their order. *)
Definition filed_on (day : string) (l : list filing) : list filing :=
  filter (fun f => filed f = day) l.

(** A test that holds for the [fuel] integers from [start] on. *)
Fixpoint forall_from (fuel : nat) (start : Z) (p : Z -> bool) : bool :=
  match fuel with
  | O => true
  | S k => p start && forall_from k (start + 1) p
  end.

(** The end of [fromordinal]: the month and the day of the [n]-th day of
    a year, counted from 0. *)
Definition month_day (leapyear : bool) (n : Z) : Z * Z :=
  let m := Z.shiftr (n + 50) 5 in
  let preceding := Date.DAYS_BEFORE_MONTH m + (if (2 <? m) && leapyear then 1 else 0) in
  if n <? preceding
  then
    let m := m - 1 in
    let preceding :=
      preceding - (Date.DAYS_IN_MONTH m + (if (m =? 2) && leapyear then 1 else 0)) in
    (m, n - preceding + 1)
  else (m, n - preceding + 1).

(** That month and day exist and lie [n] days after the first of
    January. *)
Definition month_day_ok (leapyear : bool) (n : Z) : bool :=
  let md := month_day leapyear n in
  (1 <=? fst md) && (fst md <=? 12) && (1 <=? snd md) &&
  (snd md <=? (if (fst md =? 2) && leapyear then 29 else Date.DAYS_IN_MONTH (fst md))) &&
  (Date.DAYS_BEFORE_MONTH (fst md) + (if (2 <? fst md) && leapyear then 1 else 0) + snd md
   =? n + 1).


(** The names the index lists, in the order it lists them. *)
Definition index_files (names : list string) : list string :=
  sort_reverse (fun fn => fn) (filter (fun fn => DATE_RE_match fn = true) names).

(** The line of the index for the report of a date. *)
Definition index_link (d : date) : string :=
  "- [" +:+ Date.isoformat d +:+ "](reports/" +:+ Date.isoformat d +:+ ".md)".

(** The entries of the report directory, none when it does not exist. *)
Definition entries_of (w : world) : gmap string node :=
  match reports (fs w) with
  | ReportsDir entries => entries
  | _ => ∅
  end.

(** The world with the index file holding [content]. *)
Definition with_index (w : world) (content : string) : world :=
  set_fs w (mkfs (tickers_json (fs w)) (reports (fs w)) (Some (File content))).

(** A computation that, run from [w], adds at most [n] requests to those
    already made, each one with the headers of the script and the time-out
    of 30 seconds. *)
Definition polite_at (n : nat) {A} (c : M A) (w : world) : Prop :=
  exists extra,
    requests (snd (c w)) = requests w ++ extra /\
    (length extra <= n)%nat /\
    Forall (fun r => req_headers r = headers /\ req_timeout r = 30) extra.
(** * Properties *)

(** [lia] is to know the quotients and remainders by constants. *)
Ltac Zify.zify_post_hook ::= Z.to_euclidean_division_equations.

(** ** The monad of effects *)

Lemma bind_ok {A B} (c : M A) (f : A -> M B) (w w' : world) (a : A) :
  c w = (Ok a, w') -> (c ≫= f) w = f a w'.
Proof. intros H. unfold mbind, M_bind. now rewrite H. Qed.


Lemma keeps_fs_bind {A B} (c : M A) (f : A -> M B) :
  keeps_fs c -> (forall a, keeps_fs (f a)) -> keeps_fs (c ≫= f).
Proof.
  intros Hc Hf w. unfold mbind, M_bind.
  specialize (Hc w). destruct (c w) as [[a|e] w1]; simpl in *.
  - now rewrite Hf.
  - exact Hc.
Qed.

Lemma keeps_fs_ret {A} (a : A) : keeps_fs (mret a : M A).
Proof. intros w. reflexivity. Qed.

Lemma keeps_fs_lift {A} (x : outcome A) : keeps_fs (lift x).
Proof. intros w. reflexivity. Qed.

Lemma keeps_fs_raise {A} (e : exn) : keeps_fs (raise e : M A).
Proof. intros w. reflexivity. Qed.

Lemma keeps_fs_for_each {A S} (l : list A) (body : A -> S -> M S) (acc : S) :
  (forall x s, keeps_fs (body x s)) -> keeps_fs (for_each l body acc).
Proof.
  intros Hb. revert acc. induction l as [|x l IH]; intros acc; simpl.
  - apply keeps_fs_ret.
  - apply keeps_fs_bind; [apply Hb | intros a; apply IH].
Qed.

(** ** The fetcher *)



(** An attempt that meets a retryable status before the last attempt
    sleeps and hands over to the next attempt. *)
Lemma attempt_retries (url : string) (attempt : Z) (rest : list Z) (w : world)
    (status : Z) (body : option json) :
  net w (length (requests w)) url = Reply status body ->
  retryable status = true ->
  attempt < 3 ->
  http_get_json_attempts url (attempt :: rest) w =
  http_get_json_attempts url rest
    (rested (inject_Z (2 ^ (attempt + 1))) (requested url w)).
Proof.
  intros Hnet Hretry Hlt. cbn [http_get_json_attempts].
  unfold mbind at 1. unfold M_bind, Sys.requests_get. rewrite Hnet. cbn [fst].
  rewrite Hretry. replace (attempt <? 3) with true by (symmetry; apply Z.ltb_lt; lia).
  reflexivity.
Qed.

(** An attempt that does not retry raises on an error status and decodes
    the body otherwise. *)
Lemma attempt_settles (url : string) (attempt : Z) (rest : list Z) (w : world)
    (status : Z) (body : option json) :
  net w (length (requests w)) url = Reply status body ->
  retryable status && (attempt <? 3) = false ->
  http_get_json_attempts url (attempt :: rest) w =
  if (400 <=? status) && (status <? 600)
  then (Raise (HTTPError status), requested url w)
  else match body with
       | Some j => (Ok j, requested url w)
       | None => (Raise ResponseJSONError, requested url w)
       end.
Proof.
  intros Hnet Hno. cbn [http_get_json_attempts].
  unfold mbind at 1. unfold M_bind, Sys.requests_get. rewrite Hnet. cbn [fst].
  rewrite Hno. unfold Sys.raise_for_status, Sys.response_json. cbn [fst snd].
  destruct ((400 <=? status) && (status <? 600)); [reflexivity|].
  destruct body; reflexivity.
Qed.





(** ** The registry loader *)

Lemma nonempty_upper (s : string) : Py.nonempty (Py.upper s) = Py.nonempty s.
Proof. destruct s; reflexivity. Qed.

Lemma load_tickers_step_entry (it : json) (out : list ticker_entry) :
  LoadSpec.is_entry it = true ->
  load_tickers_step it out =
  Ok (if LoadSpec.complete it then out ++ [LoadSpec.normalized it] else out).
Proof.
  destruct it as [| | | |l|d]; try discriminate. cbn [LoadSpec.is_entry].
  intros [Ht Hn]%andb_true_iff.
  unfold load_tickers_step, LoadSpec.complete, LoadSpec.normalized, LoadSpec.field,
    LoadSpec.text_or_absent in *.
  cbn [Builtin.get]. unfold mbind, outcome_bind.
  destruct (Builtin.dict_get d "ticker" (JStr "")) as [| | |t| |]; try discriminate.
  destruct (Builtin.dict_get d "name" (JStr "")) as [| | |n| |]; try discriminate.
  cbn [method_strip]. rewrite nonempty_upper.
  destruct (Py.nonempty (Py.strip t) && Py.nonempty (Py.strip n)); reflexivity.
Qed.




(** ** The loop of [main] over the tickers *)





(** A ticker whose identifier is missing or zero gets the empty list, and
    the world is left as it was: nothing is fetched. *)
Lemma main_step_no_identifier (ticker_to_cik : gmap string Z) (cutoff : date)
    (it : ticker_entry) (results : gmap string (list filing)) (w : world) :
  cik_truthy (ticker_to_cik !! ticker it) = false ->
  main_step ticker_to_cik cutoff it results w = (Ok (<[ticker it := []]> results), w).
Proof. intros H. unfold main_step. now rewrite H. Qed.





(** C10. An identifier equal to zero is read as no identifier: with the
    mapping sending the ticker to 0 every pass of the loop, and so the
    whole loop, does what it does with the ticker removed from the
    mapping, and the pass for that ticker records the empty list and
    leaves the world alone, so nothing is fetched for it. *)
Theorem zero_identifier_is_no_identifier (ticker_to_cik : gmap string Z) (cutoff : date)
    (t : string) :
  ticker_to_cik !! t = Some 0 ->
  (forall it acc w,
      main_step ticker_to_cik cutoff it acc w =
      main_step (delete t ticker_to_cik) cutoff it acc w) /\
  (forall tickers acc w,
      for_each tickers (main_step ticker_to_cik cutoff) acc w =
      for_each tickers (main_step (delete t ticker_to_cik) cutoff) acc w) /\
  (forall it acc w,
      ticker it = t ->
      main_step ticker_to_cik cutoff it acc w = (Ok (<[t := []]> acc), w)).
Proof.
  intros Hzero.
  assert (Hstep : forall it acc w,
             main_step ticker_to_cik cutoff it acc w =
             main_step (delete t ticker_to_cik) cutoff it acc w).
  { intros it acc w. unfold main_step.
    destruct (decide (t = ticker it)) as [<-|Hne].
    - now rewrite Hzero, lookup_delete_eq.
    - now rewrite lookup_delete_ne. }
  split; [exact Hstep|]. split.
  - intros tickers. induction tickers as [|it tickers IH]; intros acc w; [reflexivity|].
    cbn [for_each]. unfold mbind, M_bind. rewrite Hstep.
    destruct (main_step (delete t ticker_to_cik) cutoff it acc w) as [[acc'|e] w1];
      [apply IH | reflexivity].
  - intros it acc w <-. apply main_step_no_identifier. now rewrite Hzero.
Qed.

(** C10, on a mapping that sends [ZERO] to 0. *)
Lemma zero_identifier_is_no_identifier_witness :
  main_step (<["ZERO" := 0]> ∅) (mkdate 2024 1 1) (mkticker "ZERO" "Zero Corp") ∅
    (mkworld (fun _ _ => NoReply) [] [] (mkdate 2024 1 31) (mkfs None NoReports None))
  = (Ok (<["ZERO" := []]> ∅),
     mkworld (fun _ _ => NoReply) [] [] (mkdate 2024 1 31) (mkfs None NoReports None)).
Proof.
  destruct (zero_identifier_is_no_identifier (<["ZERO" := 0]> ∅) (mkdate 2024 1 1) "ZERO")
    as (_ & _ & H).
  - reflexivity.
  - apply H. reflexivity.
Defined.

(** ** A failed fetch and the files *)











(** The fetcher, the registry loader and the resolver leave the files
    alone. *)
Lemma keeps_fs_http_get_json_attempts (url : string) (attempts : list Z) :
  keeps_fs (http_get_json_attempts url attempts).
Proof.
  induction attempts as [|attempt rest IH]; cbn [http_get_json_attempts].
  - apply keeps_fs_raise.
  - apply keeps_fs_bind.
    + intros w. unfold Sys.requests_get.
      now destruct (net w (length (requests w)) url).
    + intros r. destruct (retryable (fst r) && (attempt <? 3)).
      * apply keeps_fs_bind; [now intros w | intros _; apply IH].
      * apply keeps_fs_bind.
        -- intros w. unfold Sys.raise_for_status.
           now destruct ((400 <=? fst r) && (fst r <? 600)).
        -- intros _ w. unfold Sys.response_json. now destruct (snd r).
Qed.

Lemma keeps_fs_load_tickers : keeps_fs load_tickers.
Proof.
  apply keeps_fs_bind.
  - intros w. unfold Sys.load_tickers_json.
    now destruct (tickers_json (fs w)) as [[|]|].
  - intros items. apply keeps_fs_bind; [apply keeps_fs_lift|].
    intros its. apply keeps_fs_lift.
Qed.

Lemma keeps_fs_build_ticker_to_cik : keeps_fs build_ticker_to_cik.
Proof.
  apply keeps_fs_bind; [apply keeps_fs_http_get_json_attempts|].
  intros data. apply keeps_fs_bind; [apply keeps_fs_lift|].
  intros rows. apply keeps_fs_ret.
Qed.

Lemma keeps_fs_main_step (ticker_to_cik : gmap string Z) (cutoff : date)
    (it : ticker_entry) (results : gmap string (list filing)) :
  keeps_fs (main_step ticker_to_cik cutoff it results).
Proof.
  unfold main_step. destruct (negb (cik_truthy (ticker_to_cik !! ticker it))).
  - apply keeps_fs_ret.
  - apply keeps_fs_bind; [apply keeps_fs_http_get_json_attempts|].
    intros subs. apply keeps_fs_bind; [now intros w|].
    intros _. apply keeps_fs_bind; [apply keeps_fs_lift|].
    intros subs'. apply keeps_fs_bind; [apply keeps_fs_lift|].
    intros fl. apply keeps_fs_ret.
Qed.

Lemma keeps_fs_main_collect : keeps_fs main_collect.
Proof.
  apply keeps_fs_bind; [now intros w|].
  intros report_date. apply keeps_fs_bind; [apply keeps_fs_lift|].
  intros delta. apply keeps_fs_bind; [apply keeps_fs_lift|].
  intros cutoff. apply keeps_fs_bind; [apply keeps_fs_load_tickers|].
  intros tickers. apply keeps_fs_bind; [apply keeps_fs_build_ticker_to_cik|].
  intros ticker_to_cik. apply keeps_fs_bind.
  - apply keeps_fs_for_each. intros x s. apply keeps_fs_main_step.
  - intros results. apply keeps_fs_ret.
Qed.



(** ** The report writer *)

Lemma append_cons (c : ascii) (a b : string) : String c a +:+ b = String c (a +:+ b).
Proof. reflexivity. Qed.

Lemma rstrip_last_char (s : string) :
  match last_char (Py.rstrip s) with
  | Some c => Py.is_space c = false
  | None => Py.rstrip s = EmptyString
  end.
Proof.
  induction s as [|c r IH]; cbn [Py.rstrip]; [reflexivity|].
  destruct (Py.is_space c && negb (Py.nonempty (Py.rstrip r))) eqn:Hc; [reflexivity|].
  cbn [last_char]. destruct (last_char (Py.rstrip r)) as [x|]; [exact IH|].
  rewrite IH in Hc. cbn in Hc. now rewrite andb_true_r in Hc.
Qed.

Lemma rstrip_fixed (s : string) (c : ascii) :
  last_char s = Some c -> Py.is_space c = false -> Py.rstrip s = s.
Proof.
  induction s as [|a r IH]; [discriminate|]. cbn [last_char Py.rstrip].
  destruct (last_char r) as [x|] eqn:Hr.
  - intros [= ->] Hc. rewrite (IH eq_refl Hc).
    destruct r; [discriminate|]. cbn. now rewrite andb_false_r.
  - intros [= ->] Hc. destruct r; [|cbn in Hr; destruct (last_char r); discriminate].
    cbn. now rewrite Hc.
Qed.

Lemma rstrip_idempotent (s : string) : Py.rstrip (Py.rstrip s) = Py.rstrip s.
Proof.
  pose proof (rstrip_last_char s) as H.
  destruct (last_char (Py.rstrip s)) as [c|] eqn:Hl.
  - now apply (rstrip_fixed _ c).
  - now rewrite H.
Qed.

Lemma rstrip_starts (c : ascii) (r : string) :
  Py.is_space c = false -> exists r', Py.rstrip (String c r) = String c r'.
Proof. intros Hc. cbn [Py.rstrip]. rewrite Hc. cbn. eauto. Qed.



(** ** The retention sweeper *)



(** ** The filing filter *)

Lemma not_before_on_or_after (cutoff d : date) :
  negb (Date.ltb d cutoff) = FilterSpec.on_or_after cutoff d.
Proof.
  unfold FilterSpec.on_or_after, Date.ltb, Date.eqb.
  destruct cutoff as [y1 m1 d1], d as [y2 m2 d2]; cbn [year month day].
  repeat match goal with
         | |- context [?a <? ?b] => destruct (Z.ltb_spec a b)
         | |- context [?a =? ?b] => destruct (Z.eqb_spec a b)
         end; cbn; try reflexivity; lia.
Qed.

(** One pass of the loop over four lists does what the specification says
    of the position. *)
Lemma filing_at_kept (submissions : json) (cutoff : date)
    (forms dates accessions primary_docs : list json) (cik : Z) (i : nat) :
  cik_of submissions = Ok cik ->
  (i < FilterSpec.positions forms dates accessions primary_docs)%nat ->
  filing_at submissions (JArr forms) (JArr dates) (JArr accessions) (JArr primary_docs)
    cutoff i =
  Ok (FilterSpec.kept cik cutoff forms dates accessions primary_docs i).
Proof.
  intros Hcik Hi. unfold FilterSpec.positions in Hi.
  destruct (lookup_lt_is_Some_2 forms i) as [f Hf]; [lia|].
  destruct (lookup_lt_is_Some_2 dates i) as [d Hd]; [lia|].
  destruct (lookup_lt_is_Some_2 accessions i) as [a Ha]; [lia|].
  destruct (lookup_lt_is_Some_2 primary_docs i) as [p Hp]; [lia|].
  unfold filing_at, FilterSpec.kept, Builtin.index, mbind, outcome_bind.
  rewrite Hf, Hd, Ha, Hp.
  destruct (bool_decide (Py.strip (Builtin.str f) ∈ FORMS)); cbn [negb andb].
  - destruct (Date.strptime_ymd (Builtin.str d)) as [filed|e]; [|reflexivity].
    rewrite <- not_before_on_or_after.
    destruct (Date.ltb filed cutoff); cbn [negb andb]; [reflexivity|].
    destruct (Py.nonempty (Py.strip (Builtin.str a))); cbn [negb andb orb]; [|reflexivity].
    destruct (Py.nonempty (Py.strip (Builtin.str p))); cbn [negb andb orb]; [|reflexivity].
    now rewrite Hcik.
  - now destruct (Date.strptime_ymd (Builtin.str d)).
Qed.

Lemma parse_loop_kept (submissions : json) (cutoff : date)
    (forms dates accessions primary_docs : list json) (cik : Z)
    (positions : list nat) (filings : list filing) :
  cik_of submissions = Ok cik ->
  Forall (fun i => (i < FilterSpec.positions forms dates accessions primary_docs)%nat)
         positions ->
  parse_loop submissions (JArr forms) (JArr dates) (JArr accessions) (JArr primary_docs)
    cutoff positions filings =
  Ok (filings ++ omap (FilterSpec.kept cik cutoff forms dates accessions primary_docs)
                      positions).
Proof.
  intros Hcik H. revert filings. induction H as [|i positions Hi _ IH]; intros filings.
  - cbn. now rewrite app_nil_r.
  - cbn [parse_loop]. rewrite (filing_at_kept _ _ _ _ _ _ cik i Hcik Hi).
    unfold mbind at 1, outcome_bind. rewrite IH. cbn [omap list_omap].
    destruct (FilterSpec.kept cik cutoff forms dates accessions primary_docs i);
      [now rewrite <- app_assoc | reflexivity].
Qed.

(** The sort only reorders. *)
Lemma insert_reverse_perm {A} (key : A -> string) (x : A) (l : list A) :
  insert_reverse key x l ≡ₚ x :: l.
Proof.
  induction l as [|y l IH]; cbn [insert_reverse]; [reflexivity|].
  destruct (Py.str_ltb (key x) (key y)); [|reflexivity].
  rewrite IH. apply Permutation_swap.
Qed.

Lemma sort_reverse_perm {A} (key : A -> string) (l : list A) :
  sort_reverse key l ≡ₚ l.
Proof.
  induction l as [|x l IH]; cbn [sort_reverse]; [reflexivity|].
  now rewrite insert_reverse_perm, IH.
Qed.



Lemma seq_below (n : nat) : Forall (fun i => (i < n)%nat) (seq 0 n).
Proof. apply Forall_forall. intros i Hi%elem_of_seq. lia. Qed.



(** ** The order of the filings *)

Lemma str_ltb_false_le (a b : string) : Py.str_ltb a b = false <-> (b ≤ a)%string.
Proof.
  unfold Py.str_ltb, String.le, String.leb.
  rewrite (String.compare_antisym b a).
  destruct (String.compare a b); cbn; split; intros H; try reflexivity; try discriminate;
    try exact I; try (now destruct H).
Qed.

Lemma str_ltb_true_le (a b : string) : Py.str_ltb a b = true -> (a ≤ b)%string.
Proof.
  unfold Py.str_ltb, String.le, String.leb.
  destruct (String.compare a b); intros H; try discriminate. exact I.
Qed.

Lemma insert_reverse_sorted {A} (key : A -> string) (x : A) (l : list A) :
  StronglySorted (not_below key) l -> StronglySorted (not_below key) (insert_reverse key x l).
Proof.
  induction 1 as [|y l Hl IH Hy]; cbn [insert_reverse].
  - repeat constructor.
  - destruct (Py.str_ltb (key x) (key y)) eqn:Hxy.
    + constructor; [exact IH|].
      rewrite insert_reverse_perm. constructor; [|exact Hy].
      now apply str_ltb_true_le.
    + apply str_ltb_false_le in Hxy.
      constructor; [now constructor|]. constructor; [exact Hxy|].
      eapply Forall_impl; [exact Hy|]. intros z Hz. unfold not_below in *.
      now transitivity (key y).
Qed.

Lemma sort_reverse_sorted {A} (key : A -> string) (l : list A) :
  StronglySorted (not_below key) (sort_reverse key l).
Proof.
  induction l as [|x l IH]; cbn [sort_reverse]; [constructor|].
  now apply insert_reverse_sorted.
Qed.

Lemma sorted_lookup {A} (R : A -> A -> Prop) (l : list A) (i j : nat) (a b : A) :
  StronglySorted R l -> (i < j)%nat -> l !! i = Some a -> l !! j = Some b -> R a b.
Proof.
  intros H. revert i j. induction H as [|x l Hl IH Hx]; intros i j Hij Hi Hj.
  - discriminate.
  - destruct j as [|j]; [lia|]. cbn in Hj. destruct i as [|i].
    + cbn in Hi. injection Hi as <-. rewrite Forall_forall in Hx.
      apply Hx. eapply list_elem_of_lookup_2, Hj.
    + cbn in Hi. apply (IH i j); [lia|assumption..].
Qed.

(** Every record the loop appends carries the ISO form of a date. *)
Lemma strptime_valid (s : string) (d : date) :
  Date.strptime_ymd s = Ok d -> Date.valid d = true.
Proof.
  unfold Date.strptime_ymd, Date.new.
  destruct (Date.re_ymd s) as [[[[y m] dd] rest]|]; [|discriminate].
  destruct (Py.nonempty rest); [discriminate|].
  destruct (Date.valid (mkdate y m dd)) eqn:Hv; [|discriminate].
  now intros [= <-].
Qed.

Lemma filing_at_dated (submissions forms dates accessions primary_docs : json)
    (cutoff : date) (i : nat) (r : filing) :
  filing_at submissions forms dates accessions primary_docs cutoff i = Ok (Some r) ->
  dated r.
Proof.
  unfold filing_at, mbind, outcome_bind.
  destruct (Builtin.index forms i) as [fv|]; [|discriminate].
  destruct (negb (bool_decide (Py.strip (Builtin.str fv) ∈ FORMS))); [discriminate|].
  destruct (Builtin.index dates i) as [dv|]; [|discriminate].
  destruct (Date.strptime_ymd (Builtin.str dv)) as [d|] eqn:Hd; [|discriminate].
  destruct (Date.ltb d cutoff); [discriminate|].
  destruct (Builtin.index accessions i) as [av|]; [|discriminate].
  destruct (Builtin.index primary_docs i) as [pv|]; [|discriminate].
  destruct (negb (Py.nonempty (Py.strip (Builtin.str av)))
            || negb (Py.nonempty (Py.strip (Builtin.str pv)))); [discriminate|].
  destruct (cik_of submissions) as [c|]; [|discriminate].
  intros [= <-]. exists d. split; [now apply strptime_valid in Hd | reflexivity].
Qed.

Lemma parse_loop_dated (submissions forms dates accessions primary_docs : json)
    (cutoff : date) (positions : list nat) (filings out : list filing) :
  Forall dated filings ->
  parse_loop submissions forms dates accessions primary_docs cutoff positions filings
    = Ok out ->
  Forall dated out.
Proof.
  revert filings. induction positions as [|i positions IH]; intros filings Hacc.
  - cbn. now intros [= <-].
  - cbn [parse_loop]. unfold mbind at 1, outcome_bind.
    destruct (filing_at submissions forms dates accessions primary_docs cutoff i)
      as [[r|]|] eqn:Hat; [| |discriminate].
    + apply IH. apply Forall_app. split; [exact Hacc|].
      constructor; [|constructor]. eapply filing_at_dated, Hat.
    + now apply IH.
Qed.

(** The output is the sorted list of dated records. *)
Lemma parse_recent_filings_sorted (submissions : json) (cutoff : date) (out : list filing) :
  parse_recent_filings submissions cutoff = Ok out ->
  StronglySorted (not_below filed) out /\ Forall dated out.
Proof.
  unfold parse_recent_filings, mbind, outcome_bind.
  destruct (recent_of submissions) as [recent|]; [|discriminate].
  destruct (column recent "form") as [forms|]; [|discriminate].
  destruct (column recent "filingDate") as [dates|]; [|discriminate].
  destruct (column recent "accessionNumber") as [accessions|]; [|discriminate].
  destruct (column recent "primaryDocument") as [primary_docs|]; [|discriminate].
  destruct (Builtin.len forms) as [n1|]; [|discriminate].
  destruct (Builtin.len dates) as [n2|]; [|discriminate].
  destruct (Builtin.len accessions) as [n3|]; [|discriminate].
  destruct (Builtin.len primary_docs) as [n4|]; [|discriminate].
  destruct (parse_loop submissions forms dates accessions primary_docs cutoff
              (seq 0 (n1 `min` (n2 `min` (n3 `min` n4)))) []) as [filings|] eqn:Hloop;
    [|discriminate].
  intros [= <-]. split; [apply sort_reverse_sorted|].
  rewrite sort_reverse_perm. eapply parse_loop_dated; [constructor | exact Hloop].
Qed.

(** *** ISO dates compare as the dates do *)

Lemma in_range_list (k : nat) (n : Z) : 0 <= n < Z.of_nat k -> In n (range k).
Proof.
  intros H. unfold range. apply in_map_iff. exists (Z.to_nat n). split; [lia|].
  apply in_seq. lia.
Qed.

Lemma format_0d_2_table :
  forallb (fun n => String.eqb (Py.format_0d 2 n) (digits2 n)) (range 100) = true.
Proof. vm_compute. reflexivity. Qed.

Lemma format_0d_4_table :
  forallb (fun hi =>
    forallb (fun lo => String.eqb (Py.format_0d 4 (100 * hi + lo))
                                  (digits2 hi +:+ digits2 lo))
            (range 100))
    (range 100) = true.
Proof. vm_compute. reflexivity. Qed.

Lemma format_0d_2 (n : Z) : 0 <= n < 100 -> Py.format_0d 2 n = digits2 n.
Proof.
  intros H. pose proof format_0d_2_table as T. rewrite forallb_forall in T.
  apply String.eqb_eq, T, (in_range_list 100). lia.
Qed.

Lemma format_0d_4 (n : Z) :
  0 <= n < 10000 -> Py.format_0d 4 n = digits2 (n / 100) +:+ digits2 (n mod 100).
Proof.
  intros H. pose proof format_0d_4_table as T. rewrite forallb_forall in T.
  specialize (T (n / 100)). rewrite forallb_forall in T.
  replace n with (100 * (n / 100) + n mod 100) at 1 by lia.
  apply String.eqb_eq, T; apply (in_range_list 100); lia.
Qed.

Lemma valid_bounds (d : date) :
  Date.valid d = true ->
  1 <= year d <= 9999 /\ 1 <= month d <= 12 /\ 1 <= day d <= 31.
Proof.
  unfold Date.valid, Date.MINYEAR, Date.MAXYEAR, Date.days_in_month.
  rewrite !andb_true_iff, !Z.leb_le. intros [[[[[? ?] ?] ?] ?] Hd].
  assert (month d = 1 \/ month d = 2 \/ month d = 3 \/ month d = 4 \/ month d = 5 \/
          month d = 6 \/ month d = 7 \/ month d = 8 \/ month d = 9 \/ month d = 10 \/
          month d = 11 \/ month d = 12) as Hm by lia.
  repeat split; try lia.
  destruct Hm as [E|[E|[E|[E|[E|[E|[E|[E|[E|[E|[E|E]]]]]]]]]]]; rewrite E in Hd; cbn in Hd;
    try lia.
  destruct (Date.is_leap (year d)); cbn in Hd; lia.
Qed.

Lemma isoformat_digits (d : date) :
  Date.valid d = true ->
  Date.isoformat d =
  digits2 (year d / 100) +:+ digits2 (year d mod 100) +:+ "-" +:+ digits2 (month d)
    +:+ "-" +:+ digits2 (day d).
Proof.
  intros (Hy & Hm & Hd)%valid_bounds. unfold Date.isoformat.
  rewrite format_0d_4, !format_0d_2 by lia.
  unfold digits2. reflexivity.
Qed.

Lemma digit_char_compare (a b : Z) :
  0 <= a < 10 -> 0 <= b < 10 ->
  Stdlib.Strings.Ascii.compare (Py.digit_char a) (Py.digit_char b) = (a ?= b).
Proof.
  intros Ha Hb.
  assert (a = 0 \/ a = 1 \/ a = 2 \/ a = 3 \/ a = 4 \/ a = 5 \/ a = 6 \/ a = 7 \/ a = 8 \/
          a = 9) as A by lia.
  assert (b = 0 \/ b = 1 \/ b = 2 \/ b = 3 \/ b = 4 \/ b = 5 \/ b = 6 \/ b = 7 \/ b = 8 \/
          b = 9) as B by lia.
  destruct A as [->|[->|[->|[->|[->|[->|[->|[->|[->| ->]]]]]]]]];
    destruct B as [->|[->|[->|[->|[->|[->|[->|[->|[->| ->]]]]]]]]]; reflexivity.
Qed.

(** Two strings that start with two digits compare by the two numbers,
    then by what follows. *)
Lemma compare_digits2 (m n : Z) (r r' : string) :
  0 <= m < 100 -> 0 <= n < 100 ->
  String.compare (digits2 m +:+ r) (digits2 n +:+ r') =
  match m ?= n with
  | Eq => String.compare r r'
  | c => c
  end.
Proof.
  intros Hm Hn. unfold digits2. rewrite !append_cons.
  change (EmptyString +:+ r) with r. change (EmptyString +:+ r') with r'.
  cbn [String.compare].
  rewrite !digit_char_compare by lia.
  destruct (Z.compare_spec (m / 10) (n / 10)), (Z.compare_spec (m mod 10) (n mod 10)),
    (Z.compare_spec m n); try reflexivity; lia.
Qed.

Lemma compare_same_head (c : ascii) (x y : string) :
  String.compare (String c x) (String c y) = String.compare x y.
Proof.
  cbn [String.compare]. unfold Stdlib.Strings.Ascii.compare. now rewrite N.compare_refl.
Qed.

Lemma isoformat_increasing (a b : date) :
  Date.valid a = true -> Date.valid b = true -> Date.ltb a b = true ->
  String.compare (Date.isoformat a) (Date.isoformat b) = Lt.
Proof.
  intros Ha Hb Hlt. rewrite !isoformat_digits by assumption.
  apply valid_bounds in Ha as (Hya & Hma & Hda), Hb as (Hyb & Hmb & Hdb).
  replace (digits2 (day a)) with (digits2 (day a) +:+ EmptyString)
    by (unfold digits2; reflexivity).
  replace (digits2 (day b)) with (digits2 (day b) +:+ EmptyString)
    by (unfold digits2; reflexivity).
  rewrite !compare_digits2 by lia.
  change ("-" +:+ ?x) with (String "-"%char x). rewrite compare_same_head.
  rewrite compare_digits2 by lia.
  change ("-" +:+ ?x) with (String "-"%char x). rewrite compare_same_head.
  rewrite compare_digits2 by lia. cbn [String.compare].
  unfold Date.ltb in Hlt.
  rewrite !orb_true_iff, !andb_true_iff, !Z.ltb_lt, !Z.eqb_eq in Hlt.
  destruct (Z.compare_spec (year a / 100) (year b / 100)),
    (Z.compare_spec (year a mod 100) (year b mod 100)),
    (Z.compare_spec (month a) (month b)), (Z.compare_spec (day a) (day b));
    try reflexivity; lia.
Qed.

(** *** Reading an ISO date back *)

Lemma digit_char_is_digit (a : Z) : 0 <= a < 10 -> Py.is_digit (Py.digit_char a) = true.
Proof.
  intros H.
  assert (a = 0 \/ a = 1 \/ a = 2 \/ a = 3 \/ a = 4 \/ a = 5 \/ a = 6 \/ a = 7 \/ a = 8 \/
          a = 9) as A by lia.
  destruct A as [->|[->|[->|[->|[->|[->|[->|[->|[->| ->]]]]]]]]]; reflexivity.
Qed.

Lemma digit_char_value (a : Z) : 0 <= a < 10 -> Py.digit_value (Py.digit_char a) = a.
Proof.
  intros H.
  assert (a = 0 \/ a = 1 \/ a = 2 \/ a = 3 \/ a = 4 \/ a = 5 \/ a = 6 \/ a = 7 \/ a = 8 \/
          a = 9) as A by lia.
  destruct A as [->|[->|[->|[->|[->|[->|[->|[->|[->| ->]]]]]]]]]; reflexivity.
Qed.

(** [\d\d] reads the two digits of a number below 100. *)
Lemma two_digits2 {A} (k : Z -> Re.matcher A) (n : Z) (rest : string) :
  0 <= n < 100 ->
  Re.two Py.is_digit Py.is_digit k (digits2 n +:+ rest) = k n rest.
Proof.
  intros H. unfold digits2, Re.two. rewrite !append_cons.
  rewrite !digit_char_is_digit, !digit_char_value by lia. cbn [andb].
  change (EmptyString +:+ rest) with rest. f_equal. lia.
Qed.

(** The matcher on the two digits of a given number. *)
Ltac read_digits2 Hk :=
  match goal with
  | |- context [digits2 ?n +:+ ?rest] =>
      let s := eval vm_compute in (digits2 n) in
      change (digits2 n +:+ rest) with (s +:+ rest)
  end;
  rewrite !append_cons; change (EmptyString +:+ ?x) with x; cbv; now rewrite Hk.

Lemma re_m_digits2 {A} (k : Z -> Re.matcher A) (m : Z) (rest : string) (r : A) :
  1 <= m <= 12 -> k m rest = Some r -> Date.re_m k (digits2 m +:+ rest) = Some r.
Proof.
  intros H Hk.
  assert (m = 1 \/ m = 2 \/ m = 3 \/ m = 4 \/ m = 5 \/ m = 6 \/ m = 7 \/ m = 8 \/ m = 9 \/
          m = 10 \/ m = 11 \/ m = 12) as M by lia.
  destruct M as [->|[->|[->|[->|[->|[->|[->|[->|[->|[->|[->| ->]]]]]]]]]]];
    read_digits2 Hk.
Qed.

Lemma re_d_digits2 {A} (k : Z -> Re.matcher A) (d : Z) (rest : string) (r : A) :
  1 <= d <= 31 -> k d rest = Some r -> Date.re_d k (digits2 d +:+ rest) = Some r.
Proof.
  intros H Hk.
  assert (d = 1 \/ d = 2 \/ d = 3 \/ d = 4 \/ d = 5 \/ d = 6 \/ d = 7 \/ d = 8 \/ d = 9 \/
          d = 10 \/ d = 11 \/ d = 12 \/ d = 13 \/ d = 14 \/ d = 15 \/ d = 16 \/ d = 17 \/
          d = 18 \/ d = 19 \/ d = 20 \/ d = 21 \/ d = 22 \/ d = 23 \/ d = 24 \/ d = 25 \/
          d = 26 \/ d = 27 \/ d = 28 \/ d = 29 \/ d = 30 \/ d = 31) as D by lia.
  repeat (destruct D as [->|D]; [read_digits2 Hk|]).
  subst d. read_digits2 Hk.
Qed.

(** [strptime] reads the ISO form of a date back to the date. *)
Lemma strptime_isoformat (d : date) :
  Date.valid d = true -> Date.strptime_ymd (Date.isoformat d) = Ok d.
Proof.
  intros Hv. pose proof (valid_bounds d Hv) as (Hy & Hm & Hd).
  unfold Date.strptime_ymd.
  assert (Hre : Date.re_ymd (Date.isoformat d) = Some (year d, month d, day d, EmptyString)).
  { rewrite isoformat_digits by exact Hv. unfold Date.re_ymd, Date.re_Y.
    rewrite two_digits2 by lia. rewrite two_digits2 by lia.
    replace (100 * (year d / 100) + year d mod 100) with (year d) by lia.
    change ("-" +:+ ?x) with (String "-"%char x). cbn [Re.lit].
    destruct (ascii_dec "-" "-") as [_|N]; [|congruence].
    apply re_m_digits2; [lia|]. cbn [Re.lit].
    destruct (ascii_dec "-" "-") as [_|N]; [|congruence].
    replace (digits2 (day d)) with (digits2 (day d) +:+ EmptyString)
      by (unfold digits2; reflexivity).
    apply re_d_digits2; [lia|]. reflexivity. }
  rewrite Hre. cbn [Py.nonempty]. unfold Date.new.
  destruct d as [y m dd]. cbn [year month day] in *. now rewrite Hv.
Qed.

Lemma compare_refl (s : string) : String.compare s s = Eq.
Proof.
  induction s as [|c s IH]; [reflexivity|]. now rewrite compare_same_head.
Qed.

(** C4. Whatever the document, a list the filter returns is made of
    records whose [filed] field is the ISO form of a calendar date and
    reads back as that date; and of two of its records the one with the
    later filed date stands first. *)
Theorem parse_recent_filings_newest_first (submissions : json) (cutoff : date)
    (out : list filing) :
  parse_recent_filings submissions cutoff = Ok out ->
  (forall f, f ∈ out ->
      exists d, Date.valid d = true /\ filed f = Date.isoformat d /\
                Date.strptime_ymd (filed f) = Ok d) /\
  (forall (p q : nat) (f1 f2 : filing) (d1 d2 : date),
      out !! p = Some f1 -> out !! q = Some f2 ->
      Date.strptime_ymd (filed f1) = Ok d1 -> Date.strptime_ymd (filed f2) = Ok d2 ->
      Date.ltb d2 d1 = true ->
      (p < q)%nat).
Proof.
  intros (Hsorted & Hdated)%parse_recent_filings_sorted.
  rewrite Forall_forall in Hdated.
  assert (Hback : forall f, f ∈ out ->
             exists d, Date.valid d = true /\ filed f = Date.isoformat d /\
                       Date.strptime_ymd (filed f) = Ok d).
  { intros f (d & Hv & Hf)%Hdated. exists d. repeat split; try assumption.
    rewrite Hf. now apply strptime_isoformat. }
  split; [exact Hback|].
  intros p q f1 f2 d1 d2 Hp Hq P1 P2 Hlt.
  destruct (Hback f1) as (d1' & V1 & E1 & B1); [eapply list_elem_of_lookup_2, Hp|].
  destruct (Hback f2) as (d2' & V2 & E2 & B2); [eapply list_elem_of_lookup_2, Hq|].
  assert (d1' = d1) as -> by congruence. assert (d2' = d2) as -> by congruence.
  pose proof (isoformat_increasing d2 d1 V2 V1 Hlt) as Hcmp.
  destruct (lt_eq_lt_dec p q) as [[Hpq|Hpq]|Hpq]; [exact Hpq| |]; exfalso.
  - subst q. rewrite Hp in Hq. injection Hq as <-.
    rewrite <- E2, E1, compare_refl in Hcmp. discriminate.
  - pose proof (sorted_lookup _ _ _ _ _ _ Hsorted Hpq Hq Hp) as Hle.
    unfold not_below, String.le, String.leb in Hle. rewrite E1, E2 in Hle.
    rewrite (String.compare_antisym (Date.isoformat d1) (Date.isoformat d2)), Hcmp in Hle.
    exact Hle.
Qed.

(** C4, on three filings listed oldest, newest, middle. *)
Lemma parse_recent_filings_newest_first_witness :
  (forall f, f ∈ Sample.newest_first ->
      exists d, Date.valid d = true /\ filed f = Date.isoformat d /\
                Date.strptime_ymd (filed f) = Ok d) /\
  (forall (p q : nat) (f1 f2 : filing) (d1 d2 : date),
      Sample.newest_first !! p = Some f1 -> Sample.newest_first !! q = Some f2 ->
      Date.strptime_ymd (filed f1) = Ok d1 -> Date.strptime_ymd (filed f2) = Ok d2 ->
      Date.ltb d2 d1 = true ->
      (p < q)%nat).
Proof.
  apply (parse_recent_filings_newest_first Sample.unsorted (mkdate 2024 1 1)).
  reflexivity.
Defined.

(** *** Report names and the sweep *)

Lemma digit_digits2 {A} (k : Re.matcher A) (n : Z) (rest : string) :
  0 <= n < 100 -> Re.digit (Re.digit k) (digits2 n +:+ rest) = k rest.
Proof.
  intros H. unfold digits2, Re.digit, Re.one. rewrite !append_cons.
  now rewrite !digit_char_is_digit by lia.
Qed.

Lemma report_name_digits (d : date) :
  Date.valid d = true ->
  report_name d =
  digits2 (year d / 100) +:+ digits2 (year d mod 100) +:+ "-" +:+ digits2 (month d)
    +:+ "-" +:+ digits2 (day d) +:+ ".md".
Proof.
  intros Hv. unfold report_name. rewrite isoformat_digits by exact Hv.
  unfold digits2. reflexivity.
Qed.

(** The name of the report of a date matches [DATE_RE]. *)
Lemma report_name_matches (d : date) :
  Date.valid d = true -> DATE_RE_match (report_name d) = true.
Proof.
  intros Hv. pose proof (valid_bounds d Hv) as (Hy & Hm & Hd).
  rewrite report_name_digits by exact Hv.
  unfold DATE_RE_match, DATE_RE, Re.seq_of. cbn [foldr].
  rewrite (digit_digits2 _ (year d / 100)) by lia.
  rewrite (digit_digits2 _ (year d mod 100)) by lia.
  change ("-" +:+ ?x) with (String "-"%char x). cbn [Re.lit].
  destruct (ascii_dec "-" "-") as [_|N]; [|congruence].
  rewrite (digit_digits2 _ (month d)) by lia.
  change ("-" +:+ ?x) with (String "-"%char x). cbn [Re.lit].
  destruct (ascii_dec "-" "-") as [_|N]; [|congruence].
  rewrite (digit_digits2 _ (day d)) by lia. reflexivity.
Qed.

Lemma replace_from_other (c : ascii) (r : string) :
  c <> "."%char ->
  Py.replace_from ".md" "" 0 (String c r) = String c (Py.replace_from ".md" "" 0 r).
Proof.
  intros Hc. cbn [Py.replace_from Py.startswith].
  destruct (ascii_dec "." c) as [E|_]; [congruence | reflexivity].
Qed.

Lemma replace_from_digits2 (n : Z) (r : string) :
  0 <= n < 100 ->
  Py.replace_from ".md" "" 0 (digits2 n +:+ r) = digits2 n +:+ Py.replace_from ".md" "" 0 r.
Proof.
  intros H. unfold digits2. rewrite !append_cons.
  change (EmptyString +:+ ?x) with x.
  rewrite !replace_from_other; [reflexivity| |].
  - intros E. pose proof (digit_char_is_digit (n mod 10) ltac:(lia)) as D.
    rewrite E in D. discriminate.
  - intros E. pose proof (digit_char_is_digit (n / 10) ltac:(lia)) as D.
    rewrite E in D. discriminate.
Qed.

(** Taking [.md] off the name of a report gives the ISO date back. *)
Lemma report_name_stem (d : date) :
  Date.valid d = true -> Py.replace ".md" "" (report_name d) = Date.isoformat d.
Proof.
  intros Hv. pose proof (valid_bounds d Hv) as (Hy & Hm & Hd).
  rewrite report_name_digits, isoformat_digits by exact Hv.
  unfold Py.replace.
  rewrite !replace_from_digits2 by lia.
  change ("-" +:+ ?x) with (String "-"%char x).
  rewrite replace_from_other by discriminate.
  rewrite replace_from_digits2 by lia.
  change ("-" +:+ ?x) with (String "-"%char x).
  rewrite replace_from_other by discriminate.
  rewrite replace_from_digits2 by lia.
  unfold digits2. reflexivity.
Qed.

(** The report of a date is swept exactly when the date is before the
    cut-off date: the report of the cut-off date itself stays. *)
Lemma expired_report_name (cutoff d : date) :
  Date.valid d = true -> expired cutoff (report_name d) = Date.ltb d cutoff.
Proof.
  intros Hv. unfold expired.
  now rewrite report_name_matches, report_name_stem, strptime_isoformat by exact Hv.
Qed.




(** ** Concrete runs *)

(** [strptime] takes a month or a day of one digit, and a day written
    with a space; it refuses a day the month does not have and anything
    after the day. *)
Example strptime_examples :
  Date.strptime_ymd "2024-01-10" = Ok (mkdate 2024 1 10) /\
  Date.strptime_ymd "2024-1-5" = Ok (mkdate 2024 1 5) /\
  Date.strptime_ymd "2024-01- 5" = Ok (mkdate 2024 1 5) /\
  Date.strptime_ymd "2024-02-29" = Ok (mkdate 2024 2 29) /\
  Date.strptime_ymd "2023-02-29" = Raise ValueError /\
  Date.strptime_ymd "2024-13-01" = Raise ValueError /\
  Date.strptime_ymd "0000-01-01" = Raise ValueError /\
  Date.strptime_ymd "2024-01-10 " = Raise ValueError.
Proof. repeat split; reflexivity. Qed.

(** Thirty days before 31 January 2024, and across the end of February in
    a leap year, a common year and the year 1900. *)
Example date_sub_examples :
  Date.sub (mkdate 2024 1 31) 30 = Ok (mkdate 2024 1 1) /\
  Date.sub (mkdate 2024 3 1) 1 = Ok (mkdate 2024 2 29) /\
  Date.sub (mkdate 2023 3 1) 1 = Ok (mkdate 2023 2 28) /\
  Date.sub (mkdate 1900 3 1) 1 = Ok (mkdate 1900 2 28) /\
  Date.sub (mkdate 1 1 15) 30 = Raise OverflowError.
Proof. repeat split; reflexivity. Qed.

(** [DATE_RE] takes a name followed by one newline, and nothing else
    around the pattern. *)
Example date_re_examples :
  DATE_RE_match "2024-01-31.md" = true /\
  DATE_RE_match ("2024-01-31.md" +:+ NEWLINE) = true /\
  DATE_RE_match "2024-01-31.mdx" = false /\
  DATE_RE_match "x2024-01-31.md" = false /\
  DATE_RE_match "2024-1-31.md" = false /\
  expired (mkdate 2024 6 1) ("2024-01-31.md" +:+ NEWLINE) = false /\
  expired (mkdate 2024 6 1) "2024-13-01.md" = false /\
  expired (mkdate 2024 6 1) "2024-01-31.md" = true.
Proof. repeat split; reflexivity. Qed.

(** The loader raises on an entry whose ticker is not text. *)
Example load_tickers_step_number :
  load_tickers_step (JObj [("ticker", JInt 7); ("name", JStr "Seven")]) [] =
  Raise AttributeError.
Proof. reflexivity. Qed.

(** The end-to-end scenario of the specification, cut-off date
    1 January 2024: the 10-K of 10 January is kept and the 8-K of 2023 is
    not. *)
Example parse_recent_filings_scenario :
  parse_recent_filings Sample.submissions (mkdate 2024 1 1) =
  Ok [ mkfiling "10-K" "2024-01-10"
         "https://www.sec.gov/Archives/edgar/data/320193/000032019324000006/aapl-10k.htm" ].
Proof. reflexivity. Qed.

(** * Further properties of the code *)

(** ** The fetcher, whatever the replies *)

Lemma attempt_no_reply (url : string) (attempt : Z) (rest : list Z) (w : world) :
  net w (length (requests w)) url = NoReply ->
  http_get_json_attempts url (attempt :: rest) w = (Raise RequestException, requested url w).
Proof.
  intros Hnet. cbn [http_get_json_attempts].
  unfold mbind at 1. unfold M_bind, Sys.requests_get. now rewrite Hnet.
Qed.

(** One attempt either stops, leaving the world one request further, or
    hands over to the attempts that remain after one request and one
    sleep of [2 ^ (attempt + 1)] seconds; the last attempt always stops. *)
Lemma attempt_cases (url : string) (attempt : Z) (rest : list Z) (w : world) :
  (exists out, http_get_json_attempts url (attempt :: rest) w = (out, requested url w)) \/
  (attempt < 3 /\
   http_get_json_attempts url (attempt :: rest) w =
   http_get_json_attempts url rest
     (rested (inject_Z (2 ^ (attempt + 1))) (requested url w))).
Proof.
  destruct (net w (length (requests w)) url) as [|status body] eqn:Hnet.
  - left. eexists. now apply attempt_no_reply.
  - destruct (retryable status && (attempt <? 3)) eqn:Hr.
    + right. apply andb_true_iff in Hr as [Hs Ha]. apply Z.ltb_lt in Ha.
      split; [exact Ha|]. now apply (attempt_retries url attempt rest w status body).
    + left. rewrite (attempt_settles url attempt rest w status body Hnet Hr).
      destruct ((400 <=? status) && (status <? 600)); [eauto|]. destruct body; eauto.
Qed.

Lemma http_get_json_run (url : string) (w : world) :
  exists k : nat,
    (1 <= k <= 4)%nat /\
    requests (snd (http_get_json url w)) =
      requests w ++ replicate k (mkrequest url headers 30) /\
    slept (snd (http_get_json url w)) = slept w ++ take (k - 1) [2%Q; 4%Q; 8%Q] /\
    fs (snd (http_get_json url w)) = fs w /\
    today (snd (http_get_json url w)) = today w.
Proof.
  unfold http_get_json. change (range 4) with [0; 1; 2; 3].
  destruct (attempt_cases url 0 [1; 2; 3] w) as [(out & ->)|(_ & ->)].
  { exists 1%nat. cbn. rewrite app_nil_r. repeat split; lia. }
  set (w1 := rested (inject_Z (2 ^ (0 + 1))) (requested url w)).
  destruct (attempt_cases url 1 [2; 3] w1) as [(out & ->)|(_ & ->)].
  { exists 2%nat. cbn. rewrite <- !app_assoc. repeat split; lia. }
  set (w2 := rested (inject_Z (2 ^ (1 + 1))) (requested url w1)).
  destruct (attempt_cases url 2 [3] w2) as [(out & ->)|(_ & ->)].
  { exists 3%nat. cbn. rewrite <- !app_assoc. repeat split; lia. }
  set (w3 := rested (inject_Z (2 ^ (2 + 1))) (requested url w2)).
  destruct (attempt_cases url 3 [] w3) as [(out & ->)|(Hlt & _)]; [|lia].
  exists 4%nat. cbn. rewrite <- !app_assoc. repeat split; lia.
Qed.


(** X2. A first reply that is not retryable settles the call at once, with
    one request and no sleep: a failure of the transport is raised as it
    is and not retried; a status from 400 to 599 raises the HTTP error;
    any other status, 200 or not, gives the decoded body, or the decoding
    error when the body is not JSON. *)
Theorem http_get_json_first_reply (url : string) (w : world) :
  (net w (length (requests w)) url = NoReply ->
   http_get_json url w = (Raise RequestException, requested url w)) /\
  (forall (status : Z) (body : option json),
      net w (length (requests w)) url = Reply status body ->
      retryable status = false ->
      http_get_json url w = (settled status body, requested url w)).
Proof.
  unfold http_get_json. change (range 4) with [0; 1; 2; 3]. split.
  - apply attempt_no_reply.
  - intros status body Hnet Hno.
    rewrite (attempt_settles url 0 _ w status body Hnet) by now rewrite Hno.
    unfold settled. destruct ((400 <=? status) && (status <? 600)); [reflexivity|].
    now destruct body.
Qed.

(** X2, on a network that drops the connection, and on one that answers
    301 with a JSON body. *)
Lemma http_get_json_first_reply_witness :
  http_get_json "u"
    (mkworld (fun _ _ => NoReply) [] [] (mkdate 2024 1 31) (mkfs None NoReports None))
  = (Raise RequestException,
     requested "u"
       (mkworld (fun _ _ => NoReply) [] [] (mkdate 2024 1 31) (mkfs None NoReports None)))
  /\
  http_get_json "u"
    (mkworld (fun _ _ => Reply 301 (Some JNull)) [] [] (mkdate 2024 1 31)
             (mkfs None NoReports None))
  = (Ok JNull,
     requested "u"
       (mkworld (fun _ _ => Reply 301 (Some JNull)) [] [] (mkdate 2024 1 31)
                (mkfs None NoReports None))).
Proof.
  split.
  - apply (proj1 (http_get_json_first_reply "u" _)). reflexivity.
  - apply (proj2 (http_get_json_first_reply "u"
                    (mkworld (fun _ _ => Reply 301 (Some JNull)) [] [] (mkdate 2024 1 31)
                             (mkfs None NoReports None)))
             301 (Some JNull)); reflexivity.
Defined.

(** ** The resolver *)


Lemma upper_char_idempotent (c : ascii) :
  Py.upper_char (Py.upper_char c) = Py.upper_char c.
Proof. destruct c as [[] [] [] [] [] [] [] []]; reflexivity. Qed.

Lemma upper_idempotent (s : string) : Py.upper (Py.upper s) = Py.upper s.
Proof.
  induction s as [|c s IH]; [reflexivity|]. cbn [Py.upper].
  now rewrite upper_char_idempotent, IH.
Qed.






(** ** The registry loader, whatever the file holds *)

Lemma is_space_upper_char (c : ascii) : Py.is_space (Py.upper_char c) = Py.is_space c.
Proof. destruct c as [[] [] [] [] [] [] [] []]; reflexivity. Qed.

Lemma lstrip_upper (s : string) : Py.lstrip (Py.upper s) = Py.upper (Py.lstrip s).
Proof.
  induction s as [|c s IH]; [reflexivity|]. cbn [Py.upper Py.lstrip].
  rewrite is_space_upper_char. now destruct (Py.is_space c).
Qed.

Lemma rstrip_upper (s : string) : Py.rstrip (Py.upper s) = Py.upper (Py.rstrip s).
Proof.
  induction s as [|c s IH]; [reflexivity|]. cbn [Py.upper Py.rstrip].
  rewrite IH, is_space_upper_char, nonempty_upper.
  now destruct (Py.is_space c && negb (Py.nonempty (Py.rstrip s))).
Qed.

Lemma strip_upper (s : string) : Py.strip (Py.upper s) = Py.upper (Py.strip s).
Proof. unfold Py.strip. now rewrite lstrip_upper, rstrip_upper. Qed.

Lemma lstrip_head (s : string) :
  Py.lstrip s = EmptyString \/
  exists c r, Py.lstrip s = String c r /\ Py.is_space c = false.
Proof.
  induction s as [|c s IH]; [now left|]. cbn [Py.lstrip].
  destruct (Py.is_space c) eqn:Hc; [exact IH|]. right. eauto.
Qed.

Lemma strip_idempotent (s : string) : Py.strip (Py.strip s) = Py.strip s.
Proof.
  unfold Py.strip at 2 3.
  destruct (lstrip_head s) as [->|(c & r & -> & Hc)]; [reflexivity|].
  destruct (rstrip_starts c r Hc) as (r' & Hr). unfold Py.strip.
  rewrite Hr. cbn [Py.lstrip]. rewrite Hc, <- Hr. apply rstrip_idempotent.
Qed.

Lemma load_tickers_step_normal (it : json) (out out' : list ticker_entry) :
  load_tickers_step it out = Ok out' ->
  Forall normal_entry out -> Forall normal_entry out'.
Proof.
  unfold load_tickers_step, mbind, outcome_bind.
  destruct (Builtin.get it "ticker" (JStr "")) as [tv|]; [|discriminate].
  destruct (method_strip tv) as [ts|] eqn:Ht; [|discriminate].
  destruct (Builtin.get it "name" (JStr "")) as [nv|]; [|discriminate].
  destruct (method_strip nv) as [n|] eqn:Hn; [|discriminate].
  destruct (Py.nonempty (Py.upper ts) && Py.nonempty n) eqn:Hboth.
  - intros [= <-] Hout. apply Forall_app. split; [exact Hout|].
    constructor; [|constructor]. apply andb_true_iff in Hboth as [H1 H2].
    destruct tv; try discriminate. destruct nv; try discriminate.
    injection Ht as <-. injection Hn as <-.
    unfold normal_entry. cbn [ticker name]. repeat split; try assumption.
    + now rewrite strip_upper, strip_idempotent.
    + apply upper_idempotent.
    + apply strip_idempotent.
  - now intros [= <-].
Qed.

Lemma load_tickers_loop_normal (its : list json) (out out' : list ticker_entry) :
  load_tickers_loop its out = Ok out' ->
  Forall normal_entry out -> Forall normal_entry out'.
Proof.
  revert out. induction its as [|it its IH]; intros out.
  - cbn. now intros [= <-].
  - cbn [load_tickers_loop]. unfold mbind at 1, outcome_bind.
    destruct (load_tickers_step it out) as [out1|] eqn:Hstep; [|discriminate].
    intros Hloop Hout. apply (IH out1 Hloop). eapply load_tickers_step_normal; eassumption.
Qed.

Lemma load_tickers_normal (w w' : world) (out : list ticker_entry) :
  load_tickers w = (Ok out, w') ->
  w' = w /\ Forall normal_entry out.
Proof.
  unfold load_tickers, mbind, M_bind, Sys.load_tickers_json, lift.
  destruct (tickers_json (fs w)) as [[items|]|]; try discriminate.
  destruct (Builtin.iter items) as [its|]; [|discriminate].
  destruct (load_tickers_loop its []) as [out0|] eqn:Hloop; [|discriminate].
  intros [= <- <-]. split; [reflexivity|].
  eapply load_tickers_loop_normal; [exact Hloop | constructor].
Qed.

(** X5. Whatever the registry file holds, when the loader returns, each
    entry it returns has a ticker and a name that are not empty and carry
    no white space at either end, and the ticker is in upper case; and the
    loader has changed nothing in the world. *)
Theorem load_tickers_entries_normal (w w' : world) (out : list ticker_entry) :
  load_tickers w = (Ok out, w') ->
  w' = w /\ Forall normal_entry out.
Proof. apply load_tickers_normal. Qed.

(** X5, on a registry of two entries with spaces and lower case. *)
Lemma load_tickers_entries_normal_witness :
  More.with_registry
    (JArr [ JObj [("ticker", JStr " brk.b "); ("name", JStr " Berkshire ")];
            JObj [("ticker", JStr "tsm"); ("name", JStr "TSMC")] ])
  = More.with_registry
      (JArr [ JObj [("ticker", JStr " brk.b "); ("name", JStr " Berkshire ")];
              JObj [("ticker", JStr "tsm"); ("name", JStr "TSMC")] ]) /\
  Forall normal_entry [mkticker "BRK.B" "Berkshire"; mkticker "TSM" "TSMC"].
Proof.
  apply (load_tickers_entries_normal
           (More.with_registry
              (JArr [ JObj [("ticker", JStr " brk.b "); ("name", JStr " Berkshire ")];
                      JObj [("ticker", JStr "tsm"); ("name", JStr "TSMC")] ]))).
  reflexivity.
Defined.

Lemma load_tickers_step_malformed (it : json) (out : list ticker_entry) :
  LoadSpec.is_entry it = false -> load_tickers_step it out = Raise AttributeError.
Proof.
  unfold load_tickers_step, mbind, outcome_bind.
  destruct it as [| | | |l|d]; try reflexivity.
  cbn [LoadSpec.is_entry Builtin.get]. unfold LoadSpec.text_or_absent.
  destruct (Builtin.dict_get d "ticker" (JStr "")); try reflexivity.
  cbn [method_strip andb].
  destruct (Builtin.dict_get d "name" (JStr "")); try reflexivity. discriminate.
Qed.

(** X6. An entry of the registry that is not an object, or whose ticker
    or name is present and is not text, is not skipped: the loader raises
    [AttributeError] at the first such entry, whatever came before and
    whatever follows, and returns no entry at all. *)
Theorem load_tickers_malformed_entry_raises (good rest : list json) (bad : json)
    (w : world) :
  tickers_json (fs w) = Some (Some (JArr (good ++ bad :: rest))) ->
  Forall (fun it => LoadSpec.is_entry it = true) good ->
  LoadSpec.is_entry bad = false ->
  load_tickers w = (Raise AttributeError, w).
Proof.
  intros Hfile Hgood Hbad. unfold load_tickers.
  rewrite (bind_ok _ _ w w (JArr (good ++ bad :: rest)))
    by (unfold Sys.load_tickers_json; now rewrite Hfile).
  cbn [Builtin.iter]. rewrite (bind_ok _ _ w w (good ++ bad :: rest)) by reflexivity.
  unfold lift. f_equal.
  assert (H : forall out, load_tickers_loop (good ++ bad :: rest) out = Raise AttributeError).
  { clear Hfile. induction Hgood as [|it good Hit _ IH]; intros out.
    - cbn [app load_tickers_loop]. now rewrite load_tickers_step_malformed.
    - cbn [app load_tickers_loop]. rewrite (load_tickers_step_entry it out Hit).
      unfold mbind, outcome_bind. apply IH. }
  apply H.
Qed.

(** X6, on a registry whose second entry has the number 7 for ticker. *)
Lemma load_tickers_malformed_entry_raises_witness :
  load_tickers (More.with_registry (JArr More.broken_registry)) =
  (Raise AttributeError, More.with_registry (JArr More.broken_registry)).
Proof.
  apply (load_tickers_malformed_entry_raises
           [JObj [("ticker", JStr "aapl"); ("name", JStr "Apple Inc")]]
           [JObj [("ticker", JStr "msft"); ("name", JStr "Microsoft")]]
           (JObj [("ticker", JInt 7); ("name", JStr "Seven")])).
  - reflexivity.
  - repeat constructor.
  - reflexivity.
Defined.

(** ** Dates as text *)

Lemma date_trichotomy (a b : date) :
  Date.ltb a b = false -> a = b \/ Date.ltb b a = true.
Proof.
  destruct a as [y1 m1 d1], b as [y2 m2 d2]. unfold Date.ltb. cbn [year month day].
  intros H.
  destruct (Z.ltb_spec y1 y2), (Z.eqb_spec y1 y2), (Z.ltb_spec m1 m2), (Z.eqb_spec m1 m2),
    (Z.ltb_spec d1 d2); cbn in H; try discriminate;
    destruct (Z.ltb_spec y2 y1), (Z.eqb_spec y2 y1), (Z.ltb_spec m2 m1), (Z.eqb_spec m2 m1),
      (Z.ltb_spec d2 d1); cbn; try (right; reflexivity); try lia;
    left; f_equal; lia.
Qed.

(** X7. The text of two calendar dates in ISO form compares, character by
    character, as the two dates do: this is what lets the filter sort the
    filings by the text of their date. *)
Theorem isoformat_order (a b : date) :
  Date.valid a = true -> Date.valid b = true ->
  Py.str_ltb (Date.isoformat a) (Date.isoformat b) = Date.ltb a b.
Proof.
  intros Va Vb. unfold Py.str_ltb. destruct (Date.ltb a b) eqn:Hab.
  - now rewrite (isoformat_increasing a b Va Vb Hab).
  - destruct (date_trichotomy a b Hab) as [->|Hba].
    + now rewrite compare_refl.
    + rewrite (String.compare_antisym (Date.isoformat a) (Date.isoformat b)).
      now rewrite (isoformat_increasing b a Vb Va Hba).
Qed.

(** X7, on 9 February and 10 January 2024: the month decides, not the
    day. *)
Lemma isoformat_order_witness :
  Py.str_ltb (Date.isoformat (mkdate 2024 2 9)) (Date.isoformat (mkdate 2024 1 10)) =
  Date.ltb (mkdate 2024 2 9) (mkdate 2024 1 10).
Proof. apply (isoformat_order (mkdate 2024 2 9) (mkdate 2024 1 10)); reflexivity. Defined.

(** X8. What [strptime] returns is a date of the calendar (year from 1 to
    9999, a day the month has), and the ISO text of a date of the calendar
    reads back as that date: the text the filter stores in [filed] stands
    for the date it parsed. *)
Theorem strptime_isoformat_round_trip :
  (forall (s : string) (d : date), Date.strptime_ymd s = Ok d -> Date.valid d = true) /\
  (forall d : date, Date.valid d = true -> Date.strptime_ymd (Date.isoformat d) = Ok d).
Proof. split; [apply strptime_valid | apply strptime_isoformat]. Qed.

(** X8, on the text [2024-2-9], which reads as 9 February 2024, whose ISO
    text reads back as the same date. *)
Lemma strptime_isoformat_round_trip_witness :
  Date.valid (mkdate 2024 2 9) = true /\
  Date.strptime_ymd (Date.isoformat (mkdate 2024 2 9)) = Ok (mkdate 2024 2 9).
Proof.
  split.
  - apply (proj1 strptime_isoformat_round_trip "2024-2-9"). reflexivity.
  - apply (proj2 strptime_isoformat_round_trip). reflexivity.
Defined.

(** ** The document URL *)

Lemma replace_dash (s : string) :
  Py.replace_from "-" "" 0 s = without_char "-" s.
Proof.
  induction s as [|a r IH]; [reflexivity|].
  cbn [Py.replace_from Py.startswith without_char String.length Nat.sub].
  destruct (ascii_dec "-" a) as [<-|Hne].
  - destruct (ascii_dec "-" "-") as [_|N]; [|congruence]. exact IH.
  - destruct (ascii_dec a "-") as [->|_]; [congruence|]. now rewrite IH.
Qed.

Lemma without_char_gone (c : ascii) (s : string) :
  Builtin.contains c (without_char c s) = false.
Proof.
  induction s as [|a r IH]; [reflexivity|]. cbn [without_char].
  destruct (ascii_dec a c) as [->|Hne]; [exact IH|].
  cbn [Builtin.contains]. destruct (ascii_dec a c); [contradiction | exact IH].
Qed.

(** X9. The URL of a document is the base path followed by the identifier
    in decimal, the accession number with every dash taken out and its
    other characters kept in their order, and the name of the document as
    it is; the accession segment holds no dash. *)
Theorem archive_url_segments (cik : Z) (accession primary_doc : string) :
  archive_url cik accession primary_doc =
    "https://www.sec.gov/Archives/edgar/data/" +:+ Py.str_of_int cik +:+ "/" +:+
    without_char "-" accession +:+ "/" +:+ primary_doc /\
  Builtin.contains "-" (without_char "-" accession) = false.
Proof.
  split; [|apply without_char_gone].
  unfold archive_url, Py.replace. now rewrite replace_dash.
Qed.

(** ** Filings of the same day *)

Lemma str_ltb_irrefl (s : string) : Py.str_ltb s s = false.
Proof. unfold Py.str_ltb. now rewrite compare_refl. Qed.

Lemma insert_reverse_filter {A} (key : A -> string) (k : string) (x : A) (l : list A) :
  filter (fun y => key y = k) (insert_reverse key x l) =
  filter (fun y => key y = k) (x :: l).
Proof.
  induction l as [|y l IH]; [reflexivity|]. cbn [insert_reverse].
  destruct (Py.str_ltb (key x) (key y)) eqn:Hxy; [|reflexivity].
  rewrite filter_cons, IH, !filter_cons.
  destruct (decide (key y = k)) as [Hy|Hy]; [|reflexivity].
  destruct (decide (key x = k)) as [Hx|Hx]; [|reflexivity].
  rewrite Hx, Hy, str_ltb_irrefl in Hxy. discriminate.
Qed.

Lemma sort_reverse_filter {A} (key : A -> string) (k : string) (l : list A) :
  filter (fun y => key y = k) (sort_reverse key l) = filter (fun y => key y = k) l.
Proof.
  induction l as [|x l IH]; [reflexivity|]. cbn [sort_reverse].
  now rewrite insert_reverse_filter, !filter_cons, IH.
Qed.

(** On four arrays the filter returns the sorted records of the kept
    positions. *)
Lemma parse_recent_filings_arrays (submissions recent : json) (cutoff : date)
    (forms dates accessions primary_docs : list json) (cik : Z) :
  recent_of submissions = Ok recent ->
  column recent "form" = Ok (JArr forms) ->
  column recent "filingDate" = Ok (JArr dates) ->
  column recent "accessionNumber" = Ok (JArr accessions) ->
  column recent "primaryDocument" = Ok (JArr primary_docs) ->
  cik_of submissions = Ok cik ->
  parse_recent_filings submissions cutoff =
  Ok (sort_reverse filed
        (omap (FilterSpec.kept cik cutoff forms dates accessions primary_docs)
              (seq 0 (FilterSpec.positions forms dates accessions primary_docs)))).
Proof.
  intros Hrecent Hforms Hdates Haccs Hdocs Hcik.
  unfold parse_recent_filings, mbind, outcome_bind.
  rewrite Hrecent, Hforms, Hdates, Haccs, Hdocs. cbn [Builtin.len].
  fold (FilterSpec.positions forms dates accessions primary_docs).
  now rewrite (parse_loop_kept submissions cutoff forms dates accessions primary_docs cik
                 _ [] Hcik (seq_below _)).
Qed.

(** X10. The sort is stable: the filings of one and the same day come out
    in the order of their positions in the source arrays. *)
Theorem parse_recent_filings_same_day_order (submissions recent : json) (cutoff : date)
    (forms dates accessions primary_docs : list json) (cik : Z) (out : list filing)
    (day : string) :
  recent_of submissions = Ok recent ->
  column recent "form" = Ok (JArr forms) ->
  column recent "filingDate" = Ok (JArr dates) ->
  column recent "accessionNumber" = Ok (JArr accessions) ->
  column recent "primaryDocument" = Ok (JArr primary_docs) ->
  cik_of submissions = Ok cik ->
  parse_recent_filings submissions cutoff = Ok out ->
  filed_on day out =
  filed_on day
    (omap (FilterSpec.kept cik cutoff forms dates accessions primary_docs)
          (seq 0 (FilterSpec.positions forms dates accessions primary_docs))).
Proof.
  intros Hrecent Hforms Hdates Haccs Hdocs Hcik Hrun.
  rewrite (parse_recent_filings_arrays submissions recent cutoff forms dates accessions
             primary_docs cik Hrecent Hforms Hdates Haccs Hdocs Hcik) in Hrun.
  injection Hrun as <-. unfold filed_on. apply sort_reverse_filter.
Qed.

(** ** Day numbers *)

Lemma forall_from_spec (fuel : nat) (start : Z) (p : Z -> bool) :
  forall_from fuel start p = true ->
  forall n, start <= n < start + Z.of_nat fuel -> p n = true.
Proof.
  revert start. induction fuel as [|k IH]; intros start H n Hn; [lia|].
  cbn [forall_from] in H. apply andb_true_iff in H as [H0 H1].
  destruct (Z.eq_dec n start) as [->|Hne]; [exact H0|].
  apply (IH (start + 1) H1). lia.
Qed.

(** The 365 first days of a common year and of a leap year, one by one. *)
Lemma month_day_table :
  forall_from 365 0 (month_day_ok false) && forall_from 365 0 (month_day_ok true) = true.
Proof. vm_compute. reflexivity. Qed.

Lemma month_day_spec (leapyear : bool) (n : Z) :
  0 <= n < 365 -> month_day_ok leapyear n = true.
Proof.
  intros H. pose proof month_day_table as T. apply andb_true_iff in T as [T0 T1].
  destruct leapyear; [apply (forall_from_spec _ _ _ T1) | apply (forall_from_spec _ _ _ T0)];
    lia.
Qed.

Lemma fromordinal_parts (n : Z) :
  let n0 := n - 1 in
  let q := n0 / 146097 in let r := n0 mod 146097 in
  let a := r / 36524 in let r1 := r mod 36524 in
  let b := r1 / 1461 in let r2 := r1 mod 1461 in
  let c := r2 / 365 in let nn := r2 mod 365 in
  let y := q * 400 + 1 + a * 100 + b * 4 + c in
  Date.fromordinal n =
  if (c =? 4) || (a =? 4) then mkdate (y - 1) 12 31
  else
    let leapyear := (c =? 3) && (negb (b =? 24) || (a =? 3)) in
    mkdate y (fst (month_day leapyear nn)) (snd (month_day leapyear nn)).
Proof.
  cbv zeta. unfold Date.fromordinal, Date.DI400Y, Date.DI100Y, Date.DI4Y, month_day. cbv zeta.
  destruct ((_ =? 4) || (_ =? 4)); [reflexivity|].
  match goal with |- context [if ?c then _ else _] => destruct c end; reflexivity.
Qed.

Lemma year_parts (q a b c : Z) :
  0 <= q -> 0 <= a <= 3 -> 0 <= b <= 24 -> 0 <= c <= 3 ->
  Date.days_before_year (400 * q + 100 * a + 4 * b + c + 1) =
    146097 * q + 36524 * a + 1461 * b + 365 * c /\
  Date.is_leap (400 * q + 100 * a + 4 * b + c + 1) =
    (c =? 3) && (negb (b =? 24) || (a =? 3)).
Proof.
  intros Hq Ha Hb Hc. split.
  - unfold Date.days_before_year. lia.
  - unfold Date.is_leap.
    destruct (Z.eqb_spec c 3), (Z.eqb_spec b 24), (Z.eqb_spec a 3);
      cbn [andb orb negb];
      repeat match goal with
             | |- context [?x =? ?y] => destruct (Z.eqb_spec x y)
             end; cbn [andb orb negb]; try reflexivity; lia.
Qed.

Lemma toordinal_fromordinal (n : Z) :
  1 <= n <= Date.MAXORDINAL ->
  Date.valid (Date.fromordinal n) = true /\ Date.toordinal (Date.fromordinal n) = n.
Proof.
  unfold Date.MAXORDINAL. intros Hn. rewrite (fromordinal_parts n). cbv zeta.
  remember ((n - 1) / 146097) as q eqn:Eq.
  remember ((n - 1) mod 146097) as r eqn:Er.
  remember (r / 36524) as a eqn:Ea. remember (r mod 36524) as r1 eqn:Er1.
  remember (r1 / 1461) as b eqn:Eb. remember (r1 mod 1461) as r2 eqn:Er2.
  remember (r2 / 365) as c eqn:Ec. remember (r2 mod 365) as nn eqn:Enn.
  assert (Hq : 0 <= q <= 24) by lia.
  assert (Hr : n - 1 = 146097 * q + r /\ 0 <= r < 146097) by lia.
  assert (Ha : r = 36524 * a + r1 /\ 0 <= r1 < 36524 /\ 0 <= a <= 4) by lia.
  assert (Hb : r1 = 1461 * b + r2 /\ 0 <= r2 < 1461 /\ 0 <= b <= 24) by lia.
  assert (Hc : r2 = 365 * c + nn /\ 0 <= nn < 365 /\ 0 <= c <= 4) by lia.
  clear Eq Er Ea Er1 Eb Er2 Ec Enn.
  unfold Date.valid, Date.toordinal, Date.MINYEAR, Date.MAXYEAR, Date.days_in_month,
    Date.days_before_month.
  destruct (Z.eqb_spec c 4) as [Hc4|Hc4]; [|destruct (Z.eqb_spec a 4) as [Ha4|Ha4]];
    cbn [orb year month day].
  - (* the last day of a leap year that does not end a cycle of 400 years *)
    assert (Hb23 : b <= 23) by lia. assert (Ha3 : a <= 3) by lia.
    replace (q * 400 + 1 + a * 100 + b * 4 + c - 1)
      with (400 * q + 100 * a + 4 * b + 3 + 1) by lia.
    destruct (year_parts q a b 3) as [Hdby Hleap]; try lia.
    rewrite Hdby, Hleap.
    replace (b =? 24) with false by (symmetry; apply Z.eqb_neq; lia).
    cbn. split; [|lia].
    rewrite !andb_true_iff, !Z.leb_le. repeat split; lia.
  - (* the last day of a cycle of 400 years *)
    replace (q * 400 + 1 + a * 100 + b * 4 + c - 1)
      with (400 * q + 100 * 3 + 4 * 24 + 3 + 1) by lia.
    destruct (year_parts q 3 24 3) as [Hdby Hleap]; try lia.
    rewrite Hdby, Hleap. cbn. split; [|lia].
    rewrite !andb_true_iff, !Z.leb_le. repeat split; lia.
  - (* any other day *)
    assert (Ha3 : a <= 3) by lia. assert (Hc3 : c <= 3) by lia.
    replace (q * 400 + 1 + a * 100 + b * 4 + c)
      with (400 * q + 100 * a + 4 * b + c + 1) by lia.
    destruct (year_parts q a b c) as [Hdby Hleap]; try lia.
    rewrite Hdby, Hleap.
    pose proof (month_day_spec ((c =? 3) && (negb (b =? 24) || (a =? 3))) nn ltac:(lia))
      as Hmd.
    unfold month_day_ok in Hmd. cbv zeta in Hmd.
    destruct (month_day ((c =? 3) && (negb (b =? 24) || (a =? 3))) nn) as [m d].
    cbn [fst snd] in *.
    rewrite !andb_true_iff, !Z.leb_le, Z.eqb_eq in Hmd.
    destruct Hmd as [[[[Hm1 Hm2] Hd1] Hd2] Hsum].
    split; [|lia].
    rewrite !andb_true_iff, !Z.leb_le. repeat split; try lia.
Qed.

Lemma days_before_next_year (y : Z) :
  Date.days_before_year (y + 1) =
  Date.days_before_year y + 365 + (if Date.is_leap y then 1 else 0).
Proof.
  unfold Date.days_before_year, Date.is_leap.
  destruct (Z.eqb_spec (y mod 4) 0), (Z.eqb_spec (y mod 100) 0), (Z.eqb_spec (y mod 400) 0);
    cbn [andb orb negb]; lia.
Qed.

Lemma days_before_year_mono (y y' : Z) :
  y <= y' -> Date.days_before_year y <= Date.days_before_year y'.
Proof. unfold Date.days_before_year. lia. Qed.

Ltac month_cases m :=
  let H := fresh in
  assert (m = 1 \/ m = 2 \/ m = 3 \/ m = 4 \/ m = 5 \/ m = 6 \/ m = 7 \/ m = 8 \/ m = 9 \/
          m = 10 \/ m = 11 \/ m = 12) as H by lia;
  destruct H as [?|[?|[?|[?|[?|[?|[?|[?|[?|[?|[?|?]]]]]]]]]]]; subst m.

(** The months of a year follow one another without gap. *)
Lemma month_ends_before_next (y m m' : Z) :
  1 <= m -> m < m' -> m' <= 12 ->
  Date.days_before_month y m + Date.days_in_month y m <= Date.days_before_month y m'.
Proof.
  intros H1 H2 H3. unfold Date.days_before_month, Date.days_in_month.
  destruct (Date.is_leap y); month_cases m; month_cases m'; cbn; lia.
Qed.

Lemma month_ends_in_year (y m : Z) :
  1 <= m <= 12 ->
  0 <= Date.days_before_month y m /\
  Date.days_before_month y m + Date.days_in_month y m <=
  365 + (if Date.is_leap y then 1 else 0).
Proof.
  intros H. unfold Date.days_before_month, Date.days_in_month.
  destruct (Date.is_leap y); month_cases m; cbn; lia.
Qed.

Lemma valid_fields (d : date) :
  Date.valid d = true ->
  1 <= year d <= 9999 /\ 1 <= month d <= 12 /\
  1 <= day d <= Date.days_in_month (year d) (month d).
Proof.
  unfold Date.valid, Date.MINYEAR, Date.MAXYEAR.
  rewrite !andb_true_iff, !Z.leb_le. tauto.
Qed.

(** A later date has a larger day number. *)
Lemma toordinal_increasing (a b : date) :
  Date.valid a = true -> Date.valid b = true -> Date.ltb a b = true ->
  Date.toordinal a < Date.toordinal b.
Proof.
  intros Va Vb Hlt.
  apply valid_fields in Va as (Hya & Hma & Hda).
  apply valid_fields in Vb as (Hyb & Hmb & Hdb).
  unfold Date.ltb in Hlt.
  rewrite orb_true_iff, andb_true_iff, orb_true_iff, andb_true_iff, !Z.ltb_lt, !Z.eqb_eq in Hlt.
  unfold Date.toordinal.
  pose proof (month_ends_in_year (year a) (month a) Hma) as [Ha0 Ha1].
  pose proof (month_ends_in_year (year b) (month b) Hmb) as [Hb0 Hb1].
  destruct Hlt as [Hy|[Hy [Hm|[Hm Hd]]]].
  - pose proof (days_before_next_year (year a)) as Hnext.
    pose proof (days_before_year_mono (year a + 1) (year b) ltac:(lia)) as Hmono.
    lia.
  - rewrite Hy in *.
    pose proof (month_ends_before_next (year b) (month a) (month b)
                  ltac:(lia) Hm ltac:(lia)).
    lia.
  - rewrite Hy, Hm in *. lia.
Qed.

Lemma toordinal_bounds (d : date) :
  Date.valid d = true -> 1 <= Date.toordinal d <= Date.MAXORDINAL.
Proof.
  intros (Hy & Hm & Hd)%valid_fields. unfold Date.toordinal, Date.MAXORDINAL.
  pose proof (month_ends_in_year (year d) (month d) Hm) as [H0 H1].
  pose proof (days_before_next_year (year d)) as Hnext.
  pose proof (days_before_year_mono 1 (year d) ltac:(lia)) as Hlow.
  pose proof (days_before_year_mono (year d + 1) 10000 ltac:(lia)) as Hhigh.
  change (Date.days_before_year 1) with 0 in Hlow.
  change (Date.days_before_year 10000) with 3652059 in Hhigh.
  lia.
Qed.

Lemma date_ltb_irrefl (d : date) : Date.ltb d d = false.
Proof.
  unfold Date.ltb. rewrite !Z.ltb_irrefl, !Z.eqb_refl. reflexivity.
Qed.

Lemma toordinal_injective (a b : date) :
  Date.valid a = true -> Date.valid b = true ->
  Date.toordinal a = Date.toordinal b -> a = b.
Proof.
  intros Va Vb E.
  destruct (Date.ltb a b) eqn:Hab.
  - pose proof (toordinal_increasing a b Va Vb Hab). lia.
  - destruct (date_trichotomy a b Hab) as [->|Hba]; [reflexivity|].
    pose proof (toordinal_increasing b a Vb Va Hba). lia.
Qed.

Lemma fromordinal_toordinal (d : date) :
  Date.valid d = true -> Date.fromordinal (Date.toordinal d) = d.
Proof.
  intros V. pose proof (toordinal_bounds d V) as B.
  destruct (toordinal_fromordinal (Date.toordinal d) B) as [V' E].
  now apply toordinal_injective.
Qed.

Lemma date_ltb_ordinal (a b : date) :
  Date.valid a = true -> Date.valid b = true ->
  Date.ltb a b = (Date.toordinal a <? Date.toordinal b).
Proof.
  intros Va Vb. destruct (Date.ltb a b) eqn:Hab.
  - pose proof (toordinal_increasing a b Va Vb Hab). symmetry. apply Z.ltb_lt. lia.
  - symmetry. apply Z.ltb_ge.
    destruct (date_trichotomy a b Hab) as [->|Hba]; [lia|].
    pose proof (toordinal_increasing b a Vb Va Hba). lia.
Qed.

Lemma date_sub_exact (d c : date) (delta : Z) :
  Date.sub d delta = Ok c ->
  Date.valid c = true /\ Date.toordinal c = Date.toordinal d - delta.
Proof.
  unfold Date.sub.
  destruct ((0 <? Date.toordinal d - delta) && (Date.toordinal d - delta <=? Date.MAXORDINAL))
    eqn:Hr; [|discriminate].
  intros [= <-]. apply andb_true_iff in Hr as [H1 H2].
  apply Z.ltb_lt in H1. apply Z.leb_le in H2.
  apply toordinal_fromordinal. lia.
Qed.

(** X11. Taking a number of days off a date of the calendar, when it does
    not raise, gives the date of the calendar that lies exactly that many
    days earlier; putting the days back gives the first date again; and
    with a number of days that is not negative the result is not after
    the first date. *)
Theorem date_sub_exact_days (d c : date) (delta : Z) :
  Date.valid d = true ->
  Date.sub d delta = Ok c ->
  Date.valid c = true /\
  Date.toordinal c = Date.toordinal d - delta /\
  Date.sub c (- delta) = Ok d /\
  (0 <= delta -> Date.ltb d c = false).
Proof.
  intros Vd Hsub. destruct (date_sub_exact d c delta Hsub) as [Vc Hord].
  split; [exact Vc|]. split; [exact Hord|]. split.
  - unfold Date.sub. replace (Date.toordinal c - - delta) with (Date.toordinal d) by lia.
    pose proof (toordinal_bounds d Vd) as B.
    replace ((0 <? Date.toordinal d) && (Date.toordinal d <=? Date.MAXORDINAL)) with true
      by (symmetry; apply andb_true_iff; split; [apply Z.ltb_lt | apply Z.leb_le]; lia).
    now rewrite fromordinal_toordinal.
  - intros Hpos. rewrite (date_ltb_ordinal d c Vd Vc). apply Z.ltb_ge. lia.
Qed.

(** X11, on 31 January 2024 less thirty days. *)
Lemma date_sub_exact_days_witness :
  Date.valid (mkdate 2024 1 1) = true /\
  Date.toordinal (mkdate 2024 1 1) = Date.toordinal (mkdate 2024 1 31) - 30 /\
  Date.sub (mkdate 2024 1 1) (- 30) = Ok (mkdate 2024 1 31) /\
  (0 <= 30 -> Date.ltb (mkdate 2024 1 31) (mkdate 2024 1 1) = false).
Proof.
  apply (date_sub_exact_days (mkdate 2024 1 31) (mkdate 2024 1 1) 30); reflexivity.
Defined.

(** X12. Dates of the calendar are ordered as their day numbers are, and
    a date of the calendar is found again from its day number. *)
Theorem date_order_is_day_order (a b : date) :
  Date.valid a = true -> Date.valid b = true ->
  Date.ltb a b = (Date.toordinal a <? Date.toordinal b) /\
  Date.fromordinal (Date.toordinal a) = a /\
  1 <= Date.toordinal a <= Date.MAXORDINAL.
Proof.
  intros Va Vb. split; [now apply date_ltb_ordinal|].
  split; [now apply fromordinal_toordinal | now apply toordinal_bounds].
Qed.

(** X12, on the last day of February 2024 and the first of March. *)
Lemma date_order_is_day_order_witness :
  Date.ltb (mkdate 2024 2 29) (mkdate 2024 3 1) =
    (Date.toordinal (mkdate 2024 2 29) <? Date.toordinal (mkdate 2024 3 1)) /\
  Date.fromordinal (Date.toordinal (mkdate 2024 2 29)) = mkdate 2024 2 29 /\
  1 <= Date.toordinal (mkdate 2024 2 29) <= Date.MAXORDINAL.
Proof.
  apply (date_order_is_day_order (mkdate 2024 2 29) (mkdate 2024 3 1)); reflexivity.
Defined.

(** The cut-off date of the sweep lies [keep_days] days before the day of
    the run. *)
Lemma sweep_cutoff_days (today_tpe cutoff : date) (keep_days : Z) :
  (delta ← Date.timedelta keep_days; Date.sub today_tpe delta) = Ok cutoff ->
  Date.valid cutoff = true /\
  Date.toordinal cutoff = Date.toordinal today_tpe - keep_days.
Proof.
  unfold mbind, outcome_bind, Date.timedelta.
  destruct ((-999999999 <=? keep_days) && (keep_days <=? 999999999)); [|discriminate].
  apply date_sub_exact.
Qed.

(** X13. The sweep removes the report of a date exactly when that date
    lies more than [keep_days] days before the day of the run; with a
    number of days that is not negative the report of the run itself is
    never due for removal. *)
Theorem expired_is_older_than_keep_days (today_tpe cutoff d : date) (keep_days : Z) :
  (delta ← Date.timedelta keep_days; Date.sub today_tpe delta) = Ok cutoff ->
  Date.valid today_tpe = true ->
  Date.valid d = true ->
  expired cutoff (report_name d) =
    (Date.toordinal d + keep_days <? Date.toordinal today_tpe) /\
  (0 <= keep_days -> expired cutoff (report_name today_tpe) = false).
Proof.
  intros Hcut Vt Vd. destruct (sweep_cutoff_days _ _ _ Hcut) as [Vc Hord]. split.
  - rewrite (expired_report_name cutoff d Vd), (date_ltb_ordinal d cutoff Vd Vc), Hord.
    destruct (Z.ltb_spec (Date.toordinal d) (Date.toordinal today_tpe - keep_days)),
      (Z.ltb_spec (Date.toordinal d + keep_days) (Date.toordinal today_tpe));
      try reflexivity; lia.
  - intros Hpos.
    rewrite (expired_report_name cutoff today_tpe Vt),
      (date_ltb_ordinal today_tpe cutoff Vt Vc), Hord.
    apply Z.ltb_ge. lia.
Qed.

(** X13, on 31 January 2024 with thirty days kept and the report of
    1 January. *)
Lemma expired_is_older_than_keep_days_witness :
  expired (mkdate 2024 1 1) (report_name (mkdate 2024 1 1)) =
    (Date.toordinal (mkdate 2024 1 1) + 30 <? Date.toordinal (mkdate 2024 1 31)) /\
  (0 <= 30 -> expired (mkdate 2024 1 1) (report_name (mkdate 2024 1 31)) = false).
Proof.
  apply (expired_is_older_than_keep_days (mkdate 2024 1 31) (mkdate 2024 1 1)
           (mkdate 2024 1 1) 30); reflexivity.
Defined.

(** X10, on two filings of 10 February 2024 around one of 1 March: the
    two stay in the order of the source. *)
Lemma parse_recent_filings_same_day_order_witness :
  filed_on "2024-02-10" More.same_day_out =
  filed_on "2024-02-10"
    (omap (FilterSpec.kept 320193 (mkdate 2024 1 1)
             [JStr "8-K"; JStr "10-Q"; JStr "8-K"]
             [JStr "2024-02-10"; JStr "2024-03-01"; JStr "2024-02-10"]
             [JStr "a-1"; JStr "a-2"; JStr "a-3"]
             [JStr "one.htm"; JStr "two.htm"; JStr "three.htm"])
          (seq 0 (FilterSpec.positions
                    [JStr "8-K"; JStr "10-Q"; JStr "8-K"]
                    [JStr "2024-02-10"; JStr "2024-03-01"; JStr "2024-02-10"]
                    [JStr "a-1"; JStr "a-2"; JStr "a-3"]
                    [JStr "one.htm"; JStr "two.htm"; JStr "three.htm"]))).
Proof.
  apply (parse_recent_filings_same_day_order More.same_day
           (JObj [ ("form", JArr [JStr "8-K"; JStr "10-Q"; JStr "8-K"]);
                   ("filingDate",
                    JArr [JStr "2024-02-10"; JStr "2024-03-01"; JStr "2024-02-10"]);
                   ("accessionNumber", JArr [JStr "a-1"; JStr "a-2"; JStr "a-3"]);
                   ("primaryDocument",
                    JArr [JStr "one.htm"; JStr "two.htm"; JStr "three.htm"]) ])
           (mkdate 2024 1 1)); reflexivity.
Defined.

(** ** The report and the index *)

Lemma write_report_run (d : date) (tickers : list ticker_entry)
    (results : gmap string (list filing)) (w : world) :
  write_report d tickers results w =
  match reports (fs w) with
  | ReportsFile => (Raise FileExistsError, w)
  | _ =>
      match entries_of w !! report_name d with
      | Some Dir =>
          (Raise IsADirectoryError, with_reports w (entries_of w))
      | _ =>
          (Ok tt, with_reports w (<[report_name d := File (report_text d tickers results)]>
                                    (entries_of w)))
      end
  end.
Proof.
  unfold write_report, mbind, M_bind, Sys.makedirs_reports, Sys.write_in_reports,
    entries_of, with_reports.
  destruct w as [n rq sl td [tj [| |entries] ix]]; cbn.
  - rewrite lookup_empty. reflexivity.
  - reflexivity.
  - destruct (entries !! report_name d) as [[c|]|]; reflexivity.
Qed.

(** X14. A write of the report that succeeds changes one thing in the
    world: the entry of the report directory named after the date, which
    now holds the text of the report.  The other reports, the index, the
    registry file, the requests and the sleeps are what they were; a
    missing report directory is created. *)
Theorem write_report_only_its_file (d : date) (tickers : list ticker_entry)
    (results : gmap string (list filing)) (w w' : world) :
  write_report d tickers results w = (Ok tt, w') ->
  w' = with_reports w (<[report_name d := File (report_text d tickers results)]>
                         (entries_of w)) /\
  (forall fn, fn <> report_name d -> entries_of w' !! fn = entries_of w !! fn) /\
  index_md (fs w') = index_md (fs w) /\
  requests w' = requests w.
Proof.
  rewrite write_report_run.
  destruct (reports (fs w)) eqn:Hr; try discriminate;
    destruct (entries_of w !! report_name d) as [[c|]|]; try discriminate;
    intros [= <-]; (split; [reflexivity|]);
    (split; [intros fn Hne; cbn; now rewrite lookup_insert_ne | split; reflexivity]).
Qed.

(** X14, on a directory that holds an earlier report. *)
Lemma write_report_only_its_file_witness :
  with_reports Sample.not_found
    (<[report_name (mkdate 2024 1 31) := File (report_text (mkdate 2024 1 31) [] ∅)]>
       (entries_of Sample.not_found))
  = with_reports Sample.not_found
      (<[report_name (mkdate 2024 1 31) := File (report_text (mkdate 2024 1 31) [] ∅)]>
         (entries_of Sample.not_found)) /\
  (forall fn, fn <> report_name (mkdate 2024 1 31) ->
      entries_of
        (with_reports Sample.not_found
           (<[report_name (mkdate 2024 1 31) :=
                File (report_text (mkdate 2024 1 31) [] ∅)]>
              (entries_of Sample.not_found))) !! fn
      = entries_of Sample.not_found !! fn) /\
  index_md (fs (with_reports Sample.not_found
                  (<[report_name (mkdate 2024 1 31) :=
                       File (report_text (mkdate 2024 1 31) [] ∅)]>
                     (entries_of Sample.not_found))))
  = index_md (fs Sample.not_found) /\
  requests (with_reports Sample.not_found
              (<[report_name (mkdate 2024 1 31) :=
                   File (report_text (mkdate 2024 1 31) [] ∅)]>
                 (entries_of Sample.not_found)))
  = requests Sample.not_found.
Proof.
  apply (write_report_only_its_file (mkdate 2024 1 31) [] ∅ Sample.not_found).
  reflexivity.
Defined.



Lemma update_index_run (w : world) :
  update_index w =
  match reports (fs w) with
  | ReportsFile => (Raise FileExistsError, w)
  | _ =>
      match index_md (fs w) with
      | Some Dir => (Raise IsADirectoryError, with_reports w (entries_of w))
      | _ =>
          (Ok tt,
           with_index (with_reports w (entries_of w))
             (index_text (map fst (map_to_list (entries_of w)))))
      end
  end.
Proof.
  unfold update_index, mbind, M_bind, Sys.makedirs_reports, Sys.listdir_reports,
    Sys.write_index, entries_of, with_reports, with_index.
  destruct w as [n rq sl td [tj [| |entries] [[c|]|]]]; reflexivity.
Qed.

Lemma update_index_ok (w w' : world) :
  update_index w = (Ok tt, w') ->
  w' = with_index (with_reports w (entries_of w))
         (index_text (map fst (map_to_list (entries_of w)))) /\
  entries_of w' = entries_of w.
Proof.
  rewrite update_index_run.
  destruct (reports (fs w)); try discriminate;
    destruct (index_md (fs w)) as [[c|]|]; try discriminate;
    intros [= <-]; split; reflexivity.
Qed.


Lemma index_files_perm (names : list string) :
  index_files names ≡ₚ filter (fun fn => DATE_RE_match fn = true) names.
Proof. apply sort_reverse_perm. Qed.



(** X17. Rebuilding the index twice is rebuilding it once: the second
    run has the outcome of the first and leaves the world the first
    left. *)
Theorem update_index_idempotent (w : world) :
  update_index (snd (update_index w)) = update_index w.
Proof.
  rewrite (update_index_run w).
  destruct w as [n rq sl td [tj [| |entries] [[c|]|]]]; reflexivity.
Qed.

Lemma append_assoc (a b c : string) : (a +:+ b) +:+ c = a +:+ (b +:+ c).
Proof. induction a as [|x a IH]; [reflexivity|]. rewrite !append_cons. now rewrite IH. Qed.

Lemma index_line_report (d : date) :
  Date.valid d = true -> index_line (report_name d) = index_link d.
Proof.
  intros V. unfold index_line, index_link. rewrite (report_name_stem d V).
  unfold report_name, REPORTS_DIR. now rewrite !append_assoc.
Qed.

Lemma write_then_index (d : date) (tickers : list ticker_entry)
    (results : gmap string (list filing)) (w w1 w2 : world) :
  Date.valid d = true ->
  write_report d tickers results w = (Ok tt, w1) ->
  update_index w1 = (Ok tt, w2) ->
  (exists before after,
      index_md (fs w2) =
      Some (File (Py.join NEWLINE (before ++ [index_link d] ++ after)))) /\
  entries_of w2 !! report_name d = Some (File (report_text d tickers results)).
Proof.
  intros V Hwrite Hindex.
  assert (Hentry : entries_of w1 !! report_name d =
                   Some (File (report_text d tickers results))).
  { rewrite write_report_run in Hwrite.
    destruct (reports (fs w)); try discriminate;
      destruct (entries_of w !! report_name d) as [[c|]|]; try discriminate;
      injection Hwrite as <-; apply lookup_insert_eq. }
  assert (Hin : report_name d ∈ index_files (map fst (map_to_list (entries_of w1)))).
  { rewrite index_files_perm, list_elem_of_filter. split; [now apply report_name_matches|].
    apply list_elem_of_fmap. exists (report_name d, File (report_text d tickers results)).
    split; [reflexivity|]. now apply elem_of_map_to_list. }
  destruct (update_index_ok w1 w2 Hindex) as [-> Hsame].
  split; [|now rewrite Hsame].
  apply list_elem_of_split in Hin as (l1 & l2 & Hsplit).
  exists (["# SEC Filing Tracker Reports"; EmptyString] ++ map index_line l1),
         (map index_line l2 ++ [EmptyString]).
  cbn [with_index set_fs fs index_md]. unfold index_text.
  fold (index_files (map fst (map_to_list (entries_of w1)))).
  rewrite Hsplit, map_app. cbn [map]. rewrite (index_line_report d V).
  now rewrite <- !app_assoc.
Qed.

(** X18. Once the report of a date of the calendar is written, the index
    that is rebuilt next has the line that links it, and the report is
    still in the directory with its text. *)
Theorem written_report_is_indexed (d : date) (tickers : list ticker_entry)
    (results : gmap string (list filing)) (w w1 w2 : world) :
  Date.valid d = true ->
  write_report d tickers results w = (Ok tt, w1) ->
  update_index w1 = (Ok tt, w2) ->
  (exists before after,
      index_md (fs w2) =
      Some (File (Py.join NEWLINE (before ++ [index_link d] ++ after)))) /\
  entries_of w2 !! report_name d = Some (File (report_text d tickers results)).
Proof. apply write_then_index. Qed.

(** X18, on a directory that holds older reports: the report of
    31 January 2024 is written and then linked. *)
Lemma written_report_is_indexed_witness :
  (exists before after,
      index_md (fs (snd (update_index
                           (snd (write_report (mkdate 2024 1 31) [] ∅ Sample.before_sweep)))))
      = Some (File (Py.join NEWLINE (before ++ [index_link (mkdate 2024 1 31)] ++ after))))
  /\
  entries_of (snd (update_index
                     (snd (write_report (mkdate 2024 1 31) [] ∅ Sample.before_sweep))))
    !! report_name (mkdate 2024 1 31)
  = Some (File (report_text (mkdate 2024 1 31) [] ∅)).
Proof.
  apply (written_report_is_indexed (mkdate 2024 1 31) [] ∅ Sample.before_sweep
           (snd (write_report (mkdate 2024 1 31) [] ∅ Sample.before_sweep))
           (snd (update_index
                   (snd (write_report (mkdate 2024 1 31) [] ∅ Sample.before_sweep)))));
    reflexivity.
Defined.

(** ** The sweep, whatever happens *)

Lemma with_reports_same (w : world) (entries : gmap string node) :
  reports (fs w) = ReportsDir entries -> with_reports w entries = w.
Proof.
  destruct w as [n rq sl td [tj r ix]]. cbn. intros ->. reflexivity.
Qed.

(** Whether it ends or raises, the loop only takes entries away, and only
    expired ones. *)
Lemma cleanup_loop_any (cutoff : date) (names : list string) :
  forall (w w' : world) (cur : gmap string node) (out : outcome unit),
    reports (fs w) = ReportsDir cur ->
    for_each names (cleanup_step cutoff) tt w = (out, w') ->
    exists cur',
      w' = with_reports w cur' /\
      forall fn, cur' !! fn = cur !! fn \/ (cur' !! fn = None /\ expired cutoff fn = true).
Proof.
  induction names as [|x names IH]; intros w w' cur out Hw Hrun.
  - cbn in Hrun. injection Hrun as _ <-. exists cur.
    split; [now rewrite with_reports_same | now left].
  - cbn [for_each] in Hrun. unfold mbind, M_bind in Hrun.
    unfold cleanup_step at 1 in Hrun.
    destruct (expired cutoff x) eqn:Hex.
    + unfold Sys.remove_in_reports in Hrun. rewrite Hw in Hrun.
      destruct (cur !! x) as [[c|]|] eqn:Hx.
      * destruct (IH (with_reports w (delete x cur)) w' (delete x cur) out eq_refl Hrun)
          as (cur' & -> & Hlook).
        exists cur'. split; [reflexivity|].
        intros fn. destruct (Hlook fn) as [H|H]; [|now right].
        destruct (decide (fn = x)) as [->|Hne].
        -- right. rewrite H, lookup_delete_eq. auto.
        -- left. now rewrite H, lookup_delete_ne.
      * injection Hrun as _ <-. exists cur.
        split; [now rewrite with_reports_same | now left].
      * injection Hrun as _ <-. exists cur.
        split; [now rewrite with_reports_same | now left].
    + cbn in Hrun. apply (IH w w' cur out Hw Hrun).
Qed.

Lemma cleanup_any (today_tpe : date) (keep_days : Z) (w w' : world)
    (entries : gmap string node) (out : outcome unit) :
  reports (fs w) = ReportsDir entries ->
  cleanup_old_reports today_tpe keep_days w = (out, w') ->
  exists entries',
    w' = with_reports w entries' /\
    forall fn,
      entries' !! fn = entries !! fn \/
      (entries' !! fn = None /\
       exists cutoff,
         (delta ← Date.timedelta keep_days; Date.sub today_tpe delta) = Ok cutoff /\
         expired cutoff fn = true).
Proof.
  intros Hw. unfold cleanup_old_reports.
  rewrite (bind_ok _ _ w w tt) by (unfold Sys.makedirs_reports; now rewrite Hw).
  unfold mbind at 1. unfold M_bind, lift.
  destruct (Date.timedelta keep_days) as [delta|e] eqn:Hdelta.
  2: { intros [= _ <-]. exists entries. split; [now rewrite with_reports_same | now left]. }
  unfold mbind at 1. unfold M_bind.
  destruct (Date.sub today_tpe delta) as [cutoff|e] eqn:Hsub.
  2: { intros [= _ <-]. exists entries. split; [now rewrite with_reports_same | now left]. }
  rewrite (bind_ok _ _ w w (map fst (map_to_list entries)))
    by (unfold Sys.listdir_reports; now rewrite Hw).
  intros Hrun. destruct (cleanup_loop_any cutoff _ w w' entries out Hw Hrun)
    as (entries' & -> & Hlook).
  exists entries'. split; [reflexivity|].
  intros fn. destruct (Hlook fn) as [H|[H Hex]]; [now left|].
  right. split; [exact H|]. exists cutoff. split; [|exact Hex].
  unfold mbind, outcome_bind. exact Hsub.
Qed.



(** ** A run that succeeds *)

Lemma bind_inv {A B} (c : M A) (f : A -> M B) (w w' : world) (b : B) :
  (c ≫= f) w = (Ok b, w') ->
  exists a w1, c w = (Ok a, w1) /\ f a w1 = (Ok b, w').
Proof.
  unfold mbind, M_bind. destruct (c w) as [[a|e] w1]; [|discriminate].
  intros H. now exists a, w1.
Qed.

Lemma main_step_inserts (ticker_to_cik : gmap string Z) (cutoff : date)
    (it : ticker_entry) (acc acc' : gmap string (list filing)) (w w' : world) :
  main_step ticker_to_cik cutoff it acc w = (Ok acc', w') ->
  exists filings, acc' = <[ticker it := filings]> acc.
Proof.
  unfold main_step. destruct (negb (cik_truthy (ticker_to_cik !! ticker it))).
  - intros [= <- _]. eauto.
  - intros H.
    apply bind_inv in H as (subs & w1 & _ & H).
    apply bind_inv in H as (u & w2 & _ & H).
    apply bind_inv in H as (subs' & w3 & _ & H).
    apply bind_inv in H as (filings & w4 & _ & H).
    injection H as <- _. eauto.
Qed.

Lemma main_loop_domain (ticker_to_cik : gmap string Z) (cutoff : date)
    (tickers : list ticker_entry) (acc results : gmap string (list filing))
    (w w' : world) (t : string) :
  for_each tickers (main_step ticker_to_cik cutoff) acc w = (Ok results, w') ->
  is_Some (results !! t) <-> t ∈ map ticker tickers \/ is_Some (acc !! t).
Proof.
  revert acc w. induction tickers as [|it tickers IH]; intros acc w Hrun.
  - cbn in Hrun. injection Hrun as <- _. cbn. rewrite elem_of_nil. tauto.
  - cbn [for_each] in Hrun. apply bind_inv in Hrun as (acc1 & w1 & Hstep & Hrest).
    apply main_step_inserts in Hstep as (filings & ->).
    rewrite (IH _ _ Hrest). cbn [map]. rewrite elem_of_cons.
    destruct (decide (t = ticker it)) as [->|Hne].
    + rewrite lookup_insert_eq. split; [auto|]. intros _. right. eauto.
    + rewrite lookup_insert_ne by congruence. tauto.
Qed.

(** X20. After the loop of [main], the results hold a list of filings
    for each ticker of the registry and for nothing else, so the report
    never falls back on the default of [results.get]. *)
Theorem main_loop_covers_registry (ticker_to_cik : gmap string Z) (cutoff : date)
    (tickers : list ticker_entry) (results : gmap string (list filing)) (w w' : world) :
  for_each tickers (main_step ticker_to_cik cutoff) ∅ w = (Ok results, w') ->
  forall t, is_Some (results !! t) <-> t ∈ map ticker tickers.
Proof.
  intros Hrun t. rewrite (main_loop_domain _ _ _ _ _ _ _ t Hrun).
  rewrite lookup_empty. split; [intros [H|[x Hx]]; [exact H|discriminate] | auto].
Qed.

(** X20, on a registry of two tickers that the mapping does not know. *)
Lemma main_loop_covers_registry_witness :
  is_Some ((<["B" := []]> (<["A" := []]> ∅) : gmap string (list filing)) !! "B") <->
  "B" ∈ map ticker [mkticker "A" "Alpha"; mkticker "B" "Beta"].
Proof.
  apply (main_loop_covers_registry ∅ (mkdate 2024 1 1)
           [mkticker "A" "Alpha"; mkticker "B" "Beta"] _
           More.offline More.offline).
  reflexivity.
Defined.

Lemma main_collect_parts (w w1 : world) (d : date) (tickers : list ticker_entry)
    (results : gmap string (list filing)) :
  main_collect w = (Ok (d, tickers, results), w1) ->
  d = today w /\
  load_tickers w = (Ok tickers, w) /\
  exists ticker_to_cik cutoff w2,
    for_each tickers (main_step ticker_to_cik cutoff) ∅ w2 = (Ok results, w1).
Proof.
  unfold main_collect. intros H.
  apply bind_inv in H as (d0 & w0 & Hnow & H).
  injection Hnow as <- <-.
  apply bind_inv in H as (delta & wa & [= _ <-] & H).
  apply bind_inv in H as (cutoff & wb & [= _ <-] & H).
  apply bind_inv in H as (tk & wc & Hload & H).
  destruct (load_tickers_normal _ _ _ Hload) as [-> _].
  apply bind_inv in H as (mapping & wd & _ & H).
  apply bind_inv in H as (res & we & Hloop & H).
  injection H as <- <- <- <-. split; [reflexivity|]. split; [exact Hload|].
  now exists mapping, cutoff, wd.
Qed.

Lemma run_day_not_expired (d cutoff : date) (keep_days : Z) :
  (delta ← Date.timedelta keep_days; Date.sub d delta) = Ok cutoff ->
  Date.valid d = true -> 0 <= keep_days ->
  expired cutoff (report_name d) = false.
Proof.
  intros Hcut V Hpos. destruct (sweep_cutoff_days _ _ _ Hcut) as [Vc Hord].
  rewrite (expired_report_name cutoff d V), (date_ltb_ordinal d cutoff V Vc), Hord.
  apply Z.ltb_ge. lia.
Qed.

(** X21. When [main] ends without raising on a day of the calendar, the
    report directory holds the report of that day, with the text written
    for the tickers the loader returned and for results that have an entry
    for each of these tickers and for nothing else, the sweep having left
    it alone; the index is a file that links this report; and the registry
    file is what it was. *)
Theorem main_leaves_report_and_index (w w' : world) :
  main w = (Ok tt, w') ->
  Date.valid (today w) = true ->
  exists tickers results,
    load_tickers w = (Ok tickers, w) /\
    (forall t, is_Some (results !! t) <-> t ∈ map ticker tickers) /\
    entries_of w' !! report_name (today w) =
      Some (File (report_text (today w) tickers results)) /\
    (exists before after,
        index_md (fs w') =
        Some (File (Py.join NEWLINE (before ++ [index_link (today w)] ++ after)))) /\
    tickers_json (fs w') = tickers_json (fs w).
Proof.
  intros Hmain V. unfold main in Hmain.
  apply bind_inv in Hmain as ([[d tickers] results] & w1 & Hcollect & Hrest).
  destruct (main_collect_parts _ _ _ _ _ Hcollect)
    as (-> & Hload & mapping & cutoff0 & w0 & Hloop).
  pose proof (keeps_fs_main_collect w) as Hfs. rewrite Hcollect in Hfs. cbn [snd] in Hfs.
  apply bind_inv in Hrest as ([] & w2 & Hwrite & Hrest).
  apply bind_inv in Hrest as ([] & w3 & Hindex & Hsweep).
  destruct (write_then_index _ _ _ _ _ _ V Hwrite Hindex) as [Hlink Hentry].
  destruct (update_index_ok _ _ Hindex) as [Hw3 _].
  assert (Hdir : reports (fs w3) = ReportsDir (entries_of w3)).
  { rewrite Hw3. reflexivity. }
  destruct (cleanup_any _ _ _ _ _ _ Hdir Hsweep) as (entries' & -> & Hlook).
  exists tickers, results. split; [exact Hload|]. split; [|split; [|split]].
  - intros t. rewrite (main_loop_domain _ _ _ _ _ _ _ t Hloop), lookup_empty.
    split; [intros [H|[x Hx]]; [exact H|discriminate] | auto].
  - cbn. destruct (Hlook (report_name (today w))) as [H|[_ (cutoff & Hcut & Hex)]].
    + now rewrite H.
    + rewrite (run_day_not_expired _ _ 30 Hcut V) in Hex by lia. discriminate.
  - exact Hlink.
  - rewrite <- Hfs. cbn. rewrite Hw3. cbn.
    rewrite write_report_run in Hwrite.
    destruct (reports (fs w1)); try discriminate;
      destruct (entries_of w1 !! report_name (today w)) as [[c|]|]; try discriminate;
      now injection Hwrite as <-.
Qed.

(** X21, on 31 January 2024, with a registry of one ticker that the
    mapping does not know, and a directory of older reports. *)
Lemma main_leaves_report_and_index_witness :
  exists tickers results,
    load_tickers More.quiet_day = (Ok tickers, More.quiet_day) /\
    (forall t, is_Some (results !! t) <-> t ∈ map ticker tickers) /\
    entries_of (snd (main More.quiet_day)) !! report_name (today More.quiet_day) =
      Some (File (report_text (today More.quiet_day) tickers results)) /\
    (exists before after,
        index_md (fs (snd (main More.quiet_day))) =
        Some (File (Py.join NEWLINE
                      (before ++ [index_link (today More.quiet_day)] ++ after)))) /\
    tickers_json (fs (snd (main More.quiet_day))) = tickers_json (fs More.quiet_day).
Proof.
  apply (main_leaves_report_and_index More.quiet_day (snd (main More.quiet_day)));
    reflexivity.
Defined.

(** ** The URL of the submissions *)
















(** ** The requests of a whole run *)

Lemma polite_at_bind {A B} (n m : nat) (c : M A) (f : A -> M B) (w : world) :
  polite_at n c w ->
  (forall a w1, c w = (Ok a, w1) -> polite_at m (f a) w1) ->
  polite_at (n + m) (c ≫= f) w.
Proof.
  intros (e1 & E1 & L1 & F1) Hf. unfold polite_at, mbind, M_bind.
  destruct (c w) as [[a|e] w1]; cbn [snd] in *.
  - destruct (Hf a w1 eq_refl) as (e2 & E2 & L2 & F2). exists (e1 ++ e2).
    rewrite E2, E1, <- app_assoc, length_app. repeat split; [lia|now apply Forall_app].
  - exists e1. repeat split; [exact E1|lia|exact F1].
Qed.

Lemma polite_at_none {A} (c : M A) (w : world) :
  requests (snd (c w)) = requests w -> polite_at 0 c w.
Proof. intros H. exists []. rewrite app_nil_r. repeat split; [exact H|cbn; lia|constructor]. Qed.

Lemma polite_at_weaken {A} (n m : nat) (c : M A) (w : world) :
  (n <= m)%nat -> polite_at n c w -> polite_at m c w.
Proof. intros Hle (e & E & L & F). exists e. repeat split; [exact E|lia|exact F]. Qed.

Lemma polite_at_http_get_json (url : string) (w : world) :
  polite_at 4 (http_get_json url) w.
Proof.
  destruct (http_get_json_run url w) as (k & Hk & E & _).
  exists (replicate k (mkrequest url headers 30)). split; [exact E|]. split.
  - rewrite length_replicate. lia.
  - apply Forall_replicate. now split.
Qed.

Lemma polite_at_main_step (ticker_to_cik : gmap string Z) (cutoff : date)
    (it : ticker_entry) (results : gmap string (list filing)) (w : world) :
  polite_at 4 (main_step ticker_to_cik cutoff it results) w.
Proof.
  unfold main_step. destruct (negb (cik_truthy (ticker_to_cik !! ticker it))).
  - apply (polite_at_weaken 0); [lia|]. now apply polite_at_none.
  - apply (polite_at_bind 4 0); [apply polite_at_http_get_json|].
    intros subs w1 _. apply (polite_at_bind 0 0); [now apply polite_at_none|].
    intros _ w2 _. apply (polite_at_bind 0 0); [now apply polite_at_none|].
    intros subs' w3 _. apply (polite_at_bind 0 0); [now apply polite_at_none|].
    intros filings w4 _. now apply polite_at_none.
Qed.

Lemma polite_at_main_loop (ticker_to_cik : gmap string Z) (cutoff : date)
    (tickers : list ticker_entry) (acc : gmap string (list filing)) (w : world) :
  polite_at (4 * length tickers) (for_each tickers (main_step ticker_to_cik cutoff) acc) w.
Proof.
  revert acc w. induction tickers as [|it tickers IH]; intros acc w; cbn [for_each].
  - now apply polite_at_none.
  - apply (polite_at_weaken (4 + 4 * length tickers)); [cbn [length]; lia|].
    apply polite_at_bind; [apply polite_at_main_step|]. intros acc1 w1 _. apply IH.
Qed.

Lemma quiet_bind {A B} (c : M A) (f : A -> M B) :
  (forall w, requests (snd (c w)) = requests w) ->
  (forall a w, requests (snd (f a w)) = requests w) ->
  forall w, requests (snd ((c ≫= f) w)) = requests w.
Proof.
  intros Hc Hf w. unfold mbind, M_bind. specialize (Hc w).
  destruct (c w) as [[a|e] w1]; cbn [snd] in *; [|exact Hc]. now rewrite Hf.
Qed.

Lemma quiet_makedirs (w : world) : requests (snd (Sys.makedirs_reports w)) = requests w.
Proof. unfold Sys.makedirs_reports. now destruct (reports (fs w)). Qed.

Lemma quiet_listdir (w : world) : requests (snd (Sys.listdir_reports w)) = requests w.
Proof. unfold Sys.listdir_reports. now destruct (reports (fs w)). Qed.

Lemma quiet_write_report (d : date) (tickers : list ticker_entry)
    (results : gmap string (list filing)) (w : world) :
  requests (snd (write_report d tickers results w)) = requests w.
Proof.
  revert w. apply quiet_bind; [apply quiet_makedirs|]. intros _ w.
  unfold Sys.write_in_reports.
  destruct (reports (fs w)) as [| |entries]; try reflexivity.
  now destruct (entries !! report_name d) as [[c|]|].
Qed.

Lemma quiet_update_index (w : world) : requests (snd (update_index w)) = requests w.
Proof.
  revert w. apply quiet_bind; [apply quiet_makedirs|]. intros _.
  apply quiet_bind; [apply quiet_listdir|]. intros names w.
  unfold Sys.write_index. now destruct (index_md (fs w)) as [[c|]|].
Qed.

Lemma quiet_cleanup_loop (cutoff : date) (names : list string) (w : world) :
  requests (snd (for_each names (cleanup_step cutoff) tt w)) = requests w.
Proof.
  revert w. induction names as [|fn names IH]; intros w; [reflexivity|].
  cbn [for_each]. revert w. apply quiet_bind.
  - intros w. unfold cleanup_step. destruct (expired cutoff fn); [|reflexivity].
    unfold Sys.remove_in_reports.
    destruct (reports (fs w)) as [| |entries]; try reflexivity.
    now destruct (entries !! fn) as [[c|]|].
  - intros [] w. apply IH.
Qed.

Lemma quiet_cleanup (today_tpe : date) (keep_days : Z) (w : world) :
  requests (snd (cleanup_old_reports today_tpe keep_days w)) = requests w.
Proof.
  revert w. apply quiet_bind; [apply quiet_makedirs|]. intros _.
  apply quiet_bind; [reflexivity|]. intros delta.
  apply quiet_bind; [reflexivity|]. intros cutoff.
  apply quiet_bind; [apply quiet_listdir|]. intros names w. apply quiet_cleanup_loop.
Qed.

(** X23. A run of [main] that gets its registry makes at most four
    requests for the mapping and four for each ticker of the registry,
    whatever the network answers and however the run ends; each request
    carries the headers of the script and the time-out of 30 seconds; the
    three writing steps make none. *)
Theorem main_request_budget (w w1 : world) (tickers : list ticker_entry) :
  load_tickers w = (Ok tickers, w1) ->
  polite_at (4 * (1 + length tickers)) main w.
Proof.
  intros Hload. destruct (load_tickers_normal _ _ _ Hload) as [-> _].
  apply (polite_at_weaken (4 * (1 + length tickers) + 0)); [lia|].
  unfold main. apply polite_at_bind.
  - unfold main_collect.
    apply (polite_at_weaken (0 + (0 + (0 + (0 + (4 + (4 * length tickers + 0)))))));
      [lia|].
    apply polite_at_bind; [now apply polite_at_none|]. intros d w0 [= <- <-].
    apply polite_at_bind; [now apply polite_at_none|]. intros delta w0 [= _ <-].
    apply polite_at_bind; [now apply polite_at_none|]. intros cutoff w0 [= _ <-].
    apply polite_at_bind; [apply polite_at_none; now rewrite Hload|].
    intros tickers' w0 Hload'. rewrite Hload in Hload'. injection Hload' as <- <-.
    apply polite_at_bind.
    { unfold build_ticker_to_cik.
      apply (polite_at_weaken (4 + (0 + 0))); [lia|].
      apply polite_at_bind; [apply polite_at_http_get_json|]. intros data w2 _.
      apply polite_at_bind; [now apply polite_at_none|]. intros rows w3 _.
      now apply polite_at_none. }
    intros mapping w2 _.
    apply polite_at_bind; [apply polite_at_main_loop|]. intros results w3 _.
    now apply polite_at_none.
  - intros [[d tk] results] w2 _. apply polite_at_none.
    revert w2. apply quiet_bind; [apply quiet_write_report|]. intros _.
    apply quiet_bind; [apply quiet_update_index|]. intros _ w2. apply quiet_cleanup.
Qed.

(** X23, on the day of the sample: one ticker, so at most eight
    requests. *)
Lemma main_request_budget_witness :
  polite_at (4 * (1 + length [mkticker "AAPL" "Apple Inc"])) main More.quiet_day.
Proof.
  apply (main_request_budget More.quiet_day More.quiet_day [mkticker "AAPL" "Apple Inc"]).
  reflexivity.
Defined.

Lemma run_raises {A B} (c : M A) (f : A -> M B) (w w1 : world) (e : exn) :
  c w = (Raise e, w1) -> (c ≫= f) w = (Raise e, w1).
Proof. intros H. unfold mbind, M_bind. now rewrite H. Qed.

Lemma run_returns {A B} (c : M A) (f : A -> M B) (w w1 : world) (a : A) :
  c w = (Ok a, w1) -> (c ≫= f) w = f a w1.
Proof. intros H. unfold mbind, M_bind. now rewrite H. Qed.

Lemma load_tickers_world (w w1 : world) (out : outcome (list ticker_entry)) :
  load_tickers w = (out, w1) -> w1 = w.
Proof.
  unfold load_tickers, mbind, M_bind, Sys.load_tickers_json, lift.
  destruct (tickers_json (fs w)) as [[items|]|]; [|now intros [= _ <-]..].
  destruct (Builtin.iter items); now intros [= _ <-].
Qed.

(** X24. When the registry cannot be loaded, on a day from which thirty
    days can be taken, [main] raises what the loader raised and the world
    is as it was: no request is made, nothing is slept, no file is
    touched. *)
Theorem main_stops_at_registry_error (w w1 : world) (e : exn) (cutoff : date) :
  (delta ← Date.timedelta 30; Date.sub (today w) delta) = Ok cutoff ->
  load_tickers w = (Raise e, w1) ->
  main w = (Raise e, w).
Proof.
  intros Hcut Hload. pose proof (load_tickers_world _ _ _ Hload) as ->.
  unfold main. apply run_raises. unfold main_collect.
  rewrite (run_returns Sys.now_date _ w w (today w) eq_refl).
  unfold mbind at 1 in Hcut. unfold outcome_bind in Hcut.
  destruct (Date.timedelta 30) as [delta|e0] eqn:Hdelta; [|discriminate].
  rewrite (run_returns (lift (Ok delta)) _ w w delta eq_refl).
  rewrite (run_returns (lift (Date.sub (today w) delta)) _ w w cutoff)
    by (unfold lift; now rewrite Hcut).
  now apply run_raises.
Qed.

(** X24, on a day without registry file. *)
Lemma main_stops_at_registry_error_witness :
  main More.offline = (Raise FileNotFoundError, More.offline).
Proof.
  apply (main_stops_at_registry_error More.offline More.offline FileNotFoundError
           (mkdate 2024 1 1)); reflexivity.
Defined.
